(** * A shallow embedding of the CARLA scenario driver ([src/main.cpp])

    The program is one [main]: it reads an optional host and port, opens a
    client session, picks a vehicle blueprint and a spawn point, spawns the
    vehicle, places the spectator behind it, drives it forward for fifty
    ticks, brakes, releases its handles and leaves through [std::exit].

    The embedding keeps that shape.  The CARLA client library is not part of
    the repository, so every call into it is answered by an arbitrary
    handler over an arbitrary hidden state: a call either returns a value or
    throws.  Everything the program does that can be seen from outside
    (lines on stdout and stderr, SDK calls with their arguments and answers,
    sleeps, handle releases) is appended to a trace.

    What the embedding takes for granted:
    - what is thrown derives from [std::exception], as the exceptions of
      [std::stoi] and of the SDK do; nothing else would be caught by the
      handler of [main];
    - [float] is IEEE-754 binary32 and every operation is rounded on its
      own (no fused multiply-add, no wider intermediate format); the
      arithmetic is the standard library's [SpecFloat];
    - writing to [std::cout] and [std::cerr], sleeping and releasing a
      handle do not throw;
    - a read through a pointer whose target has been destroyed returns a
      value the program does not determine.  This is what happens to
      [vehicle_bp] on the fall-back path: it is set to point into the
      filtered library [vehicles] (line 63), that library dies with its
      block (line 65), and the pointer is read at line 86.  The value read
      there is the parameter [stale_blueprint]. *)

From Stdlib Require Import ZArith List String Ascii Bool Lia.
From Stdlib Require Import Floats.SpecFloat.
Import ListNotations.

Local Open Scope string_scope.
Local Open Scope list_scope.
Local Open Scope Z_scope.

(* ------------------------------------------------------------------ *)
(** ** binary32 arithmetic *)

Module F32.

Definition prec : Z := 24.
Definition emax : Z := 128.

Definition float : Type := spec_float.

Definition add : float -> float -> float := SFadd prec emax.
Definition sub : float -> float -> float := SFsub prec emax.
Definition mul : float -> float -> float := SFmul prec emax.
Definition div : float -> float -> float := SFdiv prec emax.
Definition sqrt : float -> float := SFsqrt prec emax.

(** Conversion of an [int] to [float], round to nearest even. *)
Definition of_Z (n : Z) : float := binary_normalize prec emax n 0 false.

(** The literal [m / 10^k] written with an [f] suffix: the nearest
    binary32 value.  [m] and [10^k] are exactly representable for the
    literals of this program, so one correctly rounded division gives it. *)
Definition decimal (m : Z) (k : nat) : float :=
  div (of_Z m) (of_Z (10 ^ Z.of_nat k)).

Definition zero : float := S754_zero false.

End F32.

Abbreviation float := F32.float.

Declare Scope f32_scope.
Delimit Scope f32_scope with f32.
Infix "+" := F32.add : f32_scope.
Infix "-" := F32.sub : f32_scope.
Infix "*" := F32.mul : f32_scope.

(* ------------------------------------------------------------------ *)
(** ** Geometry and control records of the SDK, as the driver sees them *)

(** [Location] and [Vector3D] both have fields [x], [y], [z] in the SDK; the
    prefixes keep the two sets of projections apart. *)
Record Vector3D := { v_x : float; v_y : float; v_z : float }.
Record Location := { loc_x : float; loc_y : float; loc_z : float }.
Record Rotation := { pitch : float; yaw : float; roll : float }.
Record Transform := { location : Location; rotation : Rotation }.

(** [cc::Vehicle::Control]: the three fields the program writes.  The other
    fields of the SDK structure keep their defaults and are never touched. *)
Record Control := { throttle : float; steer : float; brake : float }.

Definition default_control : Control :=
  {| throttle := F32.zero; steer := F32.zero; brake := F32.zero |}.

Record ActorBlueprint := { bp_id : string }.
Record Map := { map_name : string }.
Record Actor := { actor_id : Z }.

(* ------------------------------------------------------------------ *)
(** ** [std::stoi] and the conversion to [uint16_t] *)

(** A call either returns or throws a [std::exception] carrying [what()]. *)
Inductive result (A : Type) : Type :=
| Ok (a : A)
| Throw (what : string).
Arguments Ok {A} a.
Arguments Throw {A} what.

Module Stoi.

Definition isspace (c : ascii) : bool :=
  let n := Z.of_nat (nat_of_ascii c) in
  (n =? 32) || ((9 <=? n) && (n <=? 13)).

Definition isdigit (c : ascii) : bool :=
  let n := Z.of_nat (nat_of_ascii c) in
  (48 <=? n) && (n <=? 57).

Definition digit_value (c : ascii) : Z := Z.of_nat (nat_of_ascii c) - 48.

Fixpoint skip_spaces (s : string) : string :=
  match s with
  | String c r => if isspace c then skip_spaces r else s
  | EmptyString => s
  end.

(** The longest prefix of decimal digits, folded into its value; [None]
    when the string does not start with a digit. *)
Fixpoint read_digits (acc : option Z) (s : string) : option Z :=
  match s with
  | String c r =>
      if isdigit c
      then read_digits
             (Some (10 * match acc with Some a => a | None => 0 end
                    + digit_value c)) r
      else acc
  | EmptyString => acc
  end.

Definition INT_MIN : Z := - 2 ^ 31.
Definition INT_MAX : Z := 2 ^ 31 - 1.

(** [what()] of the two exceptions of [std::stoi] (libstdc++ wording). *)
Definition invalid_argument : string := "stoi".
Definition out_of_range : string := "stoi".

(** [std::stoi(str)] in base 10: [strtol] skips white space, reads an
    optional sign ([read_sign]) and the longest run of digits and ignores
    what follows; no digit at all is [std::invalid_argument], a value
    outside [int] is [std::out_of_range]. *)
Definition read_sign (s : string) : bool * string :=
  match s with
  | String "-" r => (true, r)
  | String "+" r => (false, r)
  | _ => (false, s)
  end.

Definition stoi (str : string) : result Z :=
  let s := skip_spaces str in
  let '(negative, s) := read_sign s in
  match read_digits None s with
  | None => Throw invalid_argument
  | Some v =>
      let n := if negative then - v else v in
      if (n <? INT_MIN) || (INT_MAX <? n)
      then Throw out_of_range
      else Ok n
  end.

End Stoi.

(** The implicit conversion of an [int] to [uint16_t]. *)
Definition to_uint16 (n : Z) : Z := n mod 65536.

(* ------------------------------------------------------------------ *)
(** ** The SDK interface and the observable trace *)

Inductive sdk_call : Type :=
| ClientCtor (host : string) (port : Z)      (* cc::Client(host, port) *)
| SetTimeout (seconds : Z)                   (* client.SetTimeout *)
| GetWorld                                   (* client.GetWorld *)
| GetMap                                     (* world.GetMap *)
| GetBlueprintLibrary                        (* world.GetBlueprintLibrary *)
| Find (id : string)                         (* blueprint_library->Find *)
| Filter (pattern : string)                  (* blueprint_library->Filter *)
| GetRecommendedSpawnPoints                  (* map->GetRecommendedSpawnPoints *)
| SpawnActor (bp : ActorBlueprint) (t : Transform)   (* world.SpawnActor *)
| GetSpectator                               (* world.GetSpectator *)
| GetTransform (a : Actor)
| SetTransform (a : Actor) (t : Transform)
| ApplyControl (a : Actor) (c : Control)
| GetLocation (a : Actor)
| GetVelocity (a : Actor)
| Destroy (a : Actor).

(** What a call returns when it does not throw.  [Find] returns a pointer
    that may be null; [Filter] and the spawn points are sequences. *)
Definition resp (c : sdk_call) : Type :=
  match c with
  | ClientCtor _ _ => unit
  | SetTimeout _ => unit
  | GetWorld => unit
  | GetMap => Map
  | GetBlueprintLibrary => unit
  | Find _ => option ActorBlueprint
  | Filter _ => list ActorBlueprint
  | GetRecommendedSpawnPoints => list Transform
  | SpawnActor _ _ => Actor
  | GetSpectator => Actor
  | GetTransform _ => Transform
  | SetTransform _ _ => unit
  | ApplyControl _ _ => unit
  | GetLocation _ => Location
  | GetVelocity _ => Vector3D
  | Destroy _ => bool
  end.

(** One operand of a [<<] chain. *)
Inductive chunk : Type :=
| Str (s : string)
| Num (n : Z)
| Flt (f : float)
| Endl.

Inductive local_handle : Type := h_vehicle | h_actor.

Inductive event : Type :=
| Cout (line : list chunk)
| Cerr (line : list chunk)
| Call (c : sdk_call) (r : result (resp c))
| SleepFor (ms : Z)
| HandleReset (h : local_handle).

(** How control leaves a piece of [main]. *)
Inductive outcome (A : Type) : Type :=
| Normal (a : A)            (* falls through to the next statement *)
| Thrown (what : string)    (* a std::exception is propagating *)
| Returned (code : Z)       (* [return code;] from main *)
| Exited (code : Z).        (* [std::exit(code)] *)
Arguments Normal {A} a.
Arguments Thrown {A} what.
Arguments Returned {A} code.
Arguments Exited {A} code.

Definition LF : string := String "010"%char EmptyString.

(** [vehicle_bp], a pointer to a blueprint: it points into the library
    ([blueprint_library], alive to the end of the [try] block) or into the
    filtered library ([vehicles], alive to the end of the [if] block of
    lines 56-65 only). *)
Inductive blueprint_pointer : Type :=
| into_library (bp : ActorBlueprint)
| into_vehicles (bp : ActorBlueprint).

(* ------------------------------------------------------------------ *)
(** ** The program *)

Section Driver.

(** The hidden state of the SDK and the simulation server behind it, and
    the way a call is answered in a given state. *)
Context {St : Type}.
Variable sdk : forall c : sdk_call, St -> result (resp c) * St.

(** [cg::Transform::GetForwardVector] is computed locally by the SDK from
    the rotation (sines and cosines); it is taken as it comes. *)
Variable GetForwardVector : Transform -> Vector3D.

(** What the storage of a destroyed blueprint holds when it is read. *)
Variable stale_blueprint : ActorBlueprint.

(** [*vehicle_bp] at line 86, after the [if] block has been left. *)
Definition read_at_spawn (vehicle_bp : blueprint_pointer) : ActorBlueprint :=
  match vehicle_bp with
  | into_library bp => bp
  | into_vehicles _ => stale_blueprint
  end.

(** A statement runs on the hidden state and the trace so far. *)
Definition M (A : Type) : Type :=
  St * list event -> outcome A * (St * list event).

Definition ret {A} (a : A) : M A := fun w => (Normal a, w).

Definition bind {A B} (m : M A) (f : A -> M B) : M B :=
  fun w =>
    match m w with
    | (Normal a, w') => f a w'
    | (Thrown what, w') => (Thrown what, w')
    | (Returned code, w') => (Returned code, w')
    | (Exited code, w') => (Exited code, w')
    end.

Notation "x <- m ;; k" := (bind m (fun x => k))
  (at level 61, m at next level, right associativity).
Notation "m ;; k" := (bind m (fun _ => k))
  (at level 61, right associativity).

Definition emit (e : event) : M unit :=
  fun '(s, tr) => (Normal tt, (s, tr ++ [e])).

Definition cout (line : list chunk) : M unit := emit (Cout line).
Definition cerr (line : list chunk) : M unit := emit (Cerr line).
Definition sleep_for (ms : Z) : M unit := emit (SleepFor ms).
Definition reset (h : local_handle) : M unit := emit (HandleReset h).

(** A call into the SDK: recorded with its answer, and thrown on when the
    answer is an exception. *)
Definition call (c : sdk_call) : M (resp c) :=
  fun '(s, tr) =>
    let '(r, s') := sdk c s in
    (match r with Ok a => Normal a | Throw what => Thrown what end,
     (s', tr ++ [Call c r])).

(** A library function that returns or throws without touching the SDK. *)
Definition lift {A} (r : result A) : M A :=
  fun w => (match r with Ok a => Normal a | Throw what => Thrown what end, w).

Definition return_ {A} (code : Z) : M A := fun w => (Returned code, w).
Definition exit {A} (code : Z) : M A := fun w => (Exited code, w).

(** [try { body } catch (const std::exception& e) { handler }] *)
Definition try_catch (body : M unit) (handler : string -> M unit) : M unit :=
  fun w =>
    match body w with
    | (Thrown what, w') => handler what w'
    | other => other
    end.

(** [for (int i = start; ...; ++i) body], [n] iterations left. *)
Fixpoint for_ (n : nat) (i : Z) (body : Z -> M unit) : M unit :=
  match n with
  | O => ret tt
  | S n' => body i ;; for_ n' (i + 1) body
  end.

(** [sqrt(v.x*v.x + v.y*v.y + v.z*v.z) * 3.6f], lines 128-130. *)
Definition speed_kmh (velocity : Vector3D) : float :=
  (F32.sqrt (v_x velocity * v_x velocity
             + v_y velocity * v_y velocity
             + v_z velocity * v_z velocity)
   * F32.decimal 36 1)%f32.

(** Lines 101-108: the spectator pose from the vehicle pose. *)
Definition spectator_pose (vehicle_transform : Transform)
                          (forward_vector : Vector3D) : Transform :=
  let spectator_location := location vehicle_transform in
  let spectator_location :=
    {| loc_x := (loc_x spectator_location - v_x forward_vector * F32.of_Z 7)%f32;
       loc_y := loc_y spectator_location;
       loc_z := loc_z spectator_location |} in
  let spectator_location :=
    {| loc_x := loc_x spectator_location;
       loc_y := (loc_y spectator_location - v_y forward_vector * F32.of_Z 7)%f32;
       loc_z := loc_z spectator_location |} in
  let spectator_location :=
    {| loc_x := loc_x spectator_location;
       loc_y := loc_y spectator_location;
       loc_z := (loc_z spectator_location + F32.of_Z 3)%f32 |} in
  let spectator_rotation := rotation vehicle_transform in
  let spectator_rotation :=
    {| pitch := F32.of_Z (-10);
       yaw := yaw spectator_rotation;
       roll := roll spectator_rotation |} in
  {| location := spectator_location; rotation := spectator_rotation |}.

(** Lines 123-136: one pass through the body of the driving loop. *)
Definition drive_tick (vehicle : Actor) (control : Control) (i : Z) : M unit :=
  call (ApplyControl vehicle control) ;;
  location <- call (GetLocation vehicle) ;;
  velocity <- call (GetVelocity vehicle) ;;
  let speed := speed_kmh velocity in
  cout [Str "Time "; Flt (F32.of_Z i * F32.decimal 1 1)%f32; Str "s - ";
        Str "Position: ("; Flt (loc_x location); Str ", ";
        Flt (loc_y location); Str ", "; Flt (loc_z location); Str ") ";
        Str "Speed: "; Flt speed; Str " km/h"; Endl] ;;
  sleep_for 100.

(** Lines 24-167: the body of the [try] block. *)
Definition try_block (argv : list string) : M unit :=
  let argc := Z.of_nat (List.length argv) in
  let host := "localhost" in
  let port := 2000 in
  let host := if 1 <? argc then nth 1 argv "" else host in
  port <- (if 2 <? argc
           then n <- lift (Stoi.stoi (nth 2 argv "")) ;; ret (to_uint16 n)
           else ret port) ;;
  cout [Str "Connecting to CARLA server: "; Str host; Str ":"; Num port; Endl] ;;
  call (ClientCtor host port) ;;
  call (SetTimeout 10) ;;
  cout [Str "Getting world information..."; Endl] ;;
  call GetWorld ;;
  cout [Str "Getting map name..."; Endl] ;;
  map <- call GetMap ;;
  cout [Str "Connected to world: "; Str (map_name map); Endl] ;;
  cout [Str "Getting blueprint library..."; Endl] ;;
  call GetBlueprintLibrary ;;
  cout [Str "Finding vehicle blueprint..."; Endl] ;;
  vehicle_bp <- call (Find "vehicle.tesla.model3") ;;
  vehicle_bp <-
    match vehicle_bp with
    | None =>
        vehicles <- call (Filter "vehicle.*") ;;
        match vehicles with
        | [] =>
            cerr [Str "Error: No vehicle blueprints found"; Endl] ;;
            return_ 1
        | first :: _ =>
            let vehicle_bp := into_vehicles first in
            cout [Str "Using vehicle: "; Str (bp_id first); Endl] ;;
            ret vehicle_bp
        end
    | Some bp =>
        cout [Str "Spawning Tesla Model 3"; Endl] ;;
        ret (into_library bp)
    end ;;
  cout [Str "Getting spawn points..."; Endl] ;;
  spawn_points <- call GetRecommendedSpawnPoints ;;
  match spawn_points with
  | [] =>
      cerr [Str "Error: No spawn points found"; Endl] ;;
      return_ 1
  | spawn_point :: _ =>
      cout [Str "Spawn point: (";
            Flt (loc_x (location spawn_point)); Str ", ";
            Flt (loc_y (location spawn_point)); Str ", ";
            Flt (loc_z (location spawn_point)); Str ")"; Endl] ;;
      cout [Str "Spawning vehicle..."; Endl] ;;
      actor <- call (SpawnActor (read_at_spawn vehicle_bp) spawn_point) ;;
      cout [Str "Casting vehicle..."; Endl] ;;
      let vehicle := actor in
      cout [Str "Vehicle spawned (ID: "; Num (actor_id vehicle); Str ")"; Endl] ;;
      sleep_for 1000 ;;
      cout [Str (LF ++ "Setting up spectator camera..."); Endl] ;;
      spectator <- call GetSpectator ;;
      vehicle_transform <- call (GetTransform vehicle) ;;
      let forward_vector := GetForwardVector vehicle_transform in
      call (SetTransform spectator
              (spectator_pose vehicle_transform forward_vector)) ;;
      cout [Str "Spectator camera positioned behind vehicle"; Endl] ;;
      cout [Str (LF ++ "=== Scenario start: Moving vehicle forward for 5 seconds ===");
            Endl] ;;
      let control := default_control in
      let control := {| throttle := F32.decimal 5 1;
                        steer := steer control;
                        brake := brake control |} in
      let control := {| throttle := throttle control;
                        steer := F32.of_Z 0;
                        brake := brake control |} in
      let control := {| throttle := throttle control;
                        steer := steer control;
                        brake := F32.of_Z 0 |} in
      for_ 50 0 (drive_tick vehicle control) ;;
      cout [Str (LF ++ "Applying brake to stop"); Endl] ;;
      let control := {| throttle := F32.of_Z 0;
                        steer := steer control;
                        brake := brake control |} in
      let control := {| throttle := throttle control;
                        steer := steer control;
                        brake := F32.of_Z 1 |} in
      call (ApplyControl vehicle control) ;;
      sleep_for 2000 ;;
      cout [Str (LF ++ "Cleaning up..."); Endl] ;;
      reset h_vehicle ;;
      reset h_actor ;;
      cout [Str "Scenario completed!"; Endl] ;;
      exit 0
  end.

(** Lines 22-175. *)
Definition main (argv : list string) : M unit :=
  try_catch (try_block argv)
    (fun what =>
       cerr [Str "Error occurred: "; Str what; Endl] ;;
       exit 1) ;;
  return_ 0.

(** A whole run from an initial SDK state: how it ended and what it did. *)
Definition run (argv : list string) (s0 : St) : outcome unit * list event :=
  let '(o, (_, tr)) := main argv (s0, []) in (o, tr).

End Driver.

(** The status the process ends with. *)
Definition exit_status (o : outcome unit) : option Z :=
  match o with
  | Returned code => Some code
  | Exited code => Some code
  | _ => None
  end.

(* ------------------------------------------------------------------ *)
(** ** A concrete SDK for the examples *)

Definition origin : Transform :=
  {| location := {| loc_x := F32.zero; loc_y := F32.zero; loc_z := F32.zero |};
     rotation := {| pitch := F32.zero; yaw := F32.zero; roll := F32.zero |} |}.

Definition unit_x : Vector3D :=
  {| v_x := F32.of_Z 1; v_y := F32.zero; v_z := F32.zero |}.

Definition tesla : ActorBlueprint := {| bp_id := "vehicle.tesla.model3" |}.
Definition audi : ActorBlueprint := {| bp_id := "vehicle.audi.tt" |}.

(** A server whose library is [library] (the vehicle blueprints it holds) and
    whose map recommends [spawn_points]; nothing ever throws, and the vehicle
    stands at the origin moving at 3 m/s along x and 4 m/s along y. *)
Definition quiet_sdk (library : list ActorBlueprint) (spawn_points : list Transform)
                     (c : sdk_call) (s : unit) : result (resp c) * unit :=
  (match c return result (resp c) with
   | ClientCtor _ _ => Ok tt
   | SetTimeout _ => Ok tt
   | GetWorld => Ok tt
   | GetMap => Ok {| map_name := "Town10HD_Opt" |}
   | GetBlueprintLibrary => Ok tt
   | Find id => Ok (find (fun bp => String.eqb (bp_id bp) id) library)
   | Filter _ => Ok library
   | GetRecommendedSpawnPoints => Ok spawn_points
   | SpawnActor _ _ => Ok {| actor_id := 24 |}
   | GetSpectator => Ok {| actor_id := 1 |}
   | GetTransform _ => Ok origin
   | SetTransform _ _ => Ok tt
   | ApplyControl _ _ => Ok tt
   | GetLocation _ => Ok (location origin)
   | GetVelocity _ => Ok {| v_x := F32.of_Z 3; v_y := F32.of_Z 4; v_z := F32.zero |}
   | Destroy _ => Ok true
   end, s).

(** The same server, except that the spawn point is occupied. *)
Definition colliding_sdk (c : sdk_call) (s : unit) : result (resp c) * unit :=
  match c as c' return result (resp c') * unit with
  | SpawnActor _ _ =>
      (Throw "Spawn failed because of collision at spawn position", s)
  | other => quiet_sdk [tesla] [origin] other s
  end.

Definition forward_x (T : Transform) : Vector3D := unit_x.

(** A blueprint that no library holds, for the storage of a destroyed one. *)
Definition garbage : ActorBlueprint := {| bp_id := "" |}.

(** A server that holds [vehicle.audi.tt] only and refuses to spawn
    anything else. *)
Definition audi_only_sdk (c : sdk_call) (s : unit) : result (resp c) * unit :=
  match c as c' return result (resp c') * unit with
  | SpawnActor bp _ =>
      (if String.eqb (bp_id bp) (bp_id audi)
       then Ok {| actor_id := 24 |}
       else Throw "blueprint not found", s)
  | other => quiet_sdk [audi] [origin] other s
  end.

Definition elsewhere : Transform :=
  {| location := {| loc_x := F32.of_Z 10; loc_y := F32.of_Z 20;
                    loc_z := F32.of_Z 1 |};
     rotation := rotation origin |}.

(** The runs used as examples below. *)
Definition completed_run : outcome unit * list event :=
  run (quiet_sdk [tesla] [origin]) forward_x garbage ["program"] tt.

Definition fallback_run : outcome unit * list event :=
  run (quiet_sdk [audi] [origin]) forward_x garbage ["program"] tt.

Definition no_blueprint_run : outcome unit * list event :=
  run (quiet_sdk [] [origin]) forward_x garbage ["program"] tt.

Definition no_spawn_point_run : outcome unit * list event :=
  run (quiet_sdk [tesla] []) forward_x garbage ["program"] tt.

Definition strict_fallback_run : outcome unit * list event :=
  run audi_only_sdk forward_x garbage ["program"] tt.

Definition two_point_run : outcome unit * list event :=
  run (quiet_sdk [tesla] [origin; elsewhere]) forward_x garbage ["program"] tt.

Definition collision_run : outcome unit * list event :=
  run colliding_sdk forward_x garbage ["program"] tt.

Definition port_3000_run : outcome unit * list event :=
  run (quiet_sdk [tesla] [origin]) forward_x garbage ["program"; "10.0.0.5"; "3000"] tt.

Definition port_70000_run : outcome unit * list event :=
  run (quiet_sdk [tesla] [origin]) forward_x garbage ["program"; "10.0.0.5"; "70000"] tt.

(* ------------------------------------------------------------------ *)
(** ** Views of a trace *)

(** The answers [f] gives along a trace, in order. *)
Fixpoint pick {A} (f : event -> option A) (tr : list event) : list A :=
  match tr with
  | [] => []
  | e :: tr' =>
      match f e with
      | Some a => a :: pick f tr'
      | None => pick f tr'
      end
  end.

(** Control messages, with the actor they are sent to left out. *)
Definition control_of (e : event) : option Control :=
  match e with
  | Call (ApplyControl _ c) _ => Some c
  | _ => None
  end.

Definition controls : list event -> list Control := pick control_of.

Definition stderr_of (e : event) : option (list chunk) :=
  match e with
  | Cerr line => Some line
  | _ => None
  end.

Definition stderr_lines : list event -> list (list chunk) := pick stderr_of.

Definition spawn_of (e : event) : option (ActorBlueprint * Transform) :=
  match e with
  | Call (SpawnActor bp t) _ => Some (bp, t)
  | _ => None
  end.

Definition spawn_requests : list event -> list (ActorBlueprint * Transform) :=
  pick spawn_of.

Definition destroy_of (e : event) : option Actor :=
  match e with
  | Call (Destroy a) _ => Some a
  | _ => None
  end.

Definition connect_of (e : event) : option (string * Z) :=
  match e with
  | Call (ClientCtor host port) _ => Some (host, port)
  | _ => None
  end.

(** The sessions a run opens: host and port of every client it creates. *)
Definition connections : list event -> list (string * Z) := pick connect_of.

(** Queries to the blueprint library with their answers, in order. *)
Inductive library_answer : Type :=
| Found (id : string) (r : result (option ActorBlueprint))
| Filtered (pattern : string) (r : result (list ActorBlueprint)).

Definition library_query (e : event) : option library_answer :=
  match e with
  | Call c r =>
      match c return result (resp c) -> option library_answer with
      | Find id => fun r => Some (Found id r)
      | Filter pattern => fun r => Some (Filtered pattern r)
      | _ => fun _ => None
      end r
  | _ => None
  end.

Definition library_queries : list event -> list library_answer :=
  pick library_query.

(** What the map answered when asked for its spawn points. *)
Definition spawn_point_answer (e : event) : option (result (list Transform)) :=
  match e with
  | Call c r =>
      match c return result (resp c) -> option (result (list Transform)) with
      | GetRecommendedSpawnPoints => fun r => Some r
      | _ => fun _ => None
      end r
  | _ => None
  end.

Definition spawn_point_answers : list event -> list (result (list Transform)) :=
  pick spawn_point_answer.

(** Reads of an actor's transform, with the answer. *)
Definition transform_sample (e : event) : option (Actor * result Transform) :=
  match e with
  | Call c r =>
      match c return result (resp c) -> option (Actor * result Transform) with
      | GetTransform a => fun r => Some (a, r)
      | _ => fun _ => None
      end r
  | _ => None
  end.

Definition set_transform_of (e : event) : option (Actor * Transform) :=
  match e with
  | Call (SetTransform a t) _ => Some (a, t)
  | _ => None
  end.

(** Reads of location and velocity, whatever they returned. *)
Definition telemetry_read (e : event) : option sdk_call :=
  match e with
  | Call (GetLocation a) _ => Some (GetLocation a)
  | Call (GetVelocity a) _ => Some (GetVelocity a)
  | _ => None
  end.

(** Velocity reads that returned a value. *)
Definition velocity_sample (e : event) : option Vector3D :=
  match e with
  | Call c r =>
      match c return result (resp c) -> option Vector3D with
      | GetVelocity _ =>
          fun r => match r with Ok v => Some v | Throw _ => None end
      | _ => fun _ => None
      end r
  | _ => None
  end.

Definition release_of (e : event) : option local_handle :=
  match e with
  | HandleReset h => Some h
  | _ => None
  end.

(** Calls that change the remote world. *)
Definition mutation_of (e : event) : option sdk_call :=
  match e with
  | Call (SpawnActor bp t) _ => Some (SpawnActor bp t)
  | Call (SetTransform a t) _ => Some (SetTransform a t)
  | Call (ApplyControl a c) _ => Some (ApplyControl a c)
  | Call (Destroy a) _ => Some (Destroy a)
  | _ => None
  end.

(** The control values of the two phases (lines 116-119 and 141-142). *)
Definition driving_control : Control :=
  {| throttle := F32.decimal 5 1; steer := F32.of_Z 0; brake := F32.of_Z 0 |}.

Definition braking_control : Control :=
  {| throttle := F32.of_Z 0; steer := F32.of_Z 0; brake := F32.of_Z 1 |}.

(** The events of one complete pass through the driving loop, given what
    the two reads returned. *)
Definition tick_events (vehicle : Actor) (control : Control) (i : Z)
                       (sample : Location * Vector3D) : list event :=
  let '(l, v) := sample in
  [Call (ApplyControl vehicle control) (Ok tt);
   Call (GetLocation vehicle) (Ok l);
   Call (GetVelocity vehicle) (Ok v);
   Cout [Str "Time "; Flt (F32.of_Z i * F32.decimal 1 1)%f32; Str "s - ";
         Str "Position: ("; Flt (loc_x l); Str ", ";
         Flt (loc_y l); Str ", "; Flt (loc_z l); Str ") ";
         Str "Speed: "; Flt (speed_kmh v); Str " km/h"; Endl];
   SleepFor 100].

Fixpoint ticks (vehicle : Actor) (control : Control) (i : Z)
               (samples : list (Location * Vector3D)) : list event :=
  match samples with
  | [] => []
  | sample :: rest =>
      tick_events vehicle control i sample ++ ticks vehicle control (i + 1) rest
  end.

(** A pass that an exception cut short. *)
Inductive broken_tick (vehicle : Actor) (control : Control) (what : string)
  : list event -> Prop :=
| broken_at_control :
    broken_tick vehicle control what
      [Call (ApplyControl vehicle control) (Throw what)]
| broken_at_location :
    broken_tick vehicle control what
      [Call (ApplyControl vehicle control) (Ok tt);
       Call (GetLocation vehicle) (Throw what)]
| broken_at_velocity l :
    broken_tick vehicle control what
      [Call (ApplyControl vehicle control) (Ok tt);
       Call (GetLocation vehicle) (Ok l);
       Call (GetVelocity vehicle) (Throw what)].

(** The events the driving loop can produce. *)
Inductive loop_event (vehicle : Actor) (control : Control) : event -> Prop :=
| le_control r : loop_event vehicle control (Call (ApplyControl vehicle control) r)
| le_location r : loop_event vehicle control (Call (GetLocation vehicle) r)
| le_velocity r : loop_event vehicle control (Call (GetVelocity vehicle) r)
| le_cout line : loop_event vehicle control (Cout line)
| le_sleep ms : loop_event vehicle control (SleepFor ms).

(* ------------------------------------------------------------------ *)
(** ** The specification's wording, for comparison with the code *)

(** "Parses as an unsigned 16-bit integer": a non-empty string of decimal
    digits whose value is below 65536. *)
Fixpoint all_digits (s : string) : bool :=
  match s with
  | EmptyString => true
  | String c r => Stoi.isdigit c && all_digits r
  end.

Fixpoint decimal_value (acc : Z) (s : string) : Z :=
  match s with
  | EmptyString => acc
  | String c r => decimal_value (10 * acc + Stoi.digit_value c) r
  end.

Definition parse_u16 (s : string) : option Z :=
  match s with
  | EmptyString => None
  | _ =>
      if all_digits s && (decimal_value 0 s <? 65536)
      then Some (decimal_value 0 s)
      else None
  end.

(** "speed_kmh = 3.6 * norm of the velocity", in binary32. *)
Definition norm2 (v : Vector3D) : float :=
  F32.sqrt (v_x v * v_x v + v_y v * v_y v + v_z v * v_z v)%f32.

Definition speed_spec (v : Vector3D) : float :=
  (F32.decimal 36 1 * norm2 v)%f32.

(** "observer.location = T.location - 7 (f.x, f.y, 0) + (0, 0, 3)" with the
    vector operations taken component by component, and
    "observer.rotation = (pitch = -10, yaw = T.yaw, roll = T.roll)". *)
Definition scale (k : float) (v : Vector3D) : Vector3D :=
  {| v_x := (k * v_x v)%f32; v_y := (k * v_y v)%f32; v_z := (k * v_z v)%f32 |}.

Definition minus (l : Location) (v : Vector3D) : Location :=
  {| loc_x := (loc_x l - v_x v)%f32;
     loc_y := (loc_y l - v_y v)%f32;
     loc_z := (loc_z l - v_z v)%f32 |}.

Definition plus (l : Location) (v : Vector3D) : Location :=
  {| loc_x := (loc_x l + v_x v)%f32;
     loc_y := (loc_y l + v_y v)%f32;
     loc_z := (loc_z l + v_z v)%f32 |}.

Definition observer_location_spec (T : Transform) (f : Vector3D) : Location :=
  plus (minus (location T)
              (scale (F32.of_Z 7)
                     {| v_x := v_x f; v_y := v_y f; v_z := F32.zero |}))
       {| v_x := F32.zero; v_y := F32.zero; v_z := F32.of_Z 3 |}.

Definition observer_rotation_spec (T : Transform) : Rotation :=
  {| pitch := F32.of_Z (-10);
     yaw := yaw (rotation T);
     roll := roll (rotation T) |}.

(** Two binary32 values that denote the same number: equal, or both a zero
    (of either sign). *)
Definition same_number (a b : float) : Prop :=
  match a, b with
  | S754_zero _, S754_zero _ => True
  | _, _ => a = b
  end.

Definition same_place (l1 l2 : Location) : Prop :=
  same_number (loc_x l1) (loc_x l2) /\
  same_number (loc_y l1) (loc_y l2) /\
  same_number (loc_z l1) (loc_z l2).

(** A line whose text begins with [p]. *)
Definition line_begins (p : string) (line : list chunk) : bool :=
  match line with
  | Str s :: _ => prefix p s
  | _ => false
  end.

(** "A log up to the point of failure, followed by a single diagnostic line
    on stderr beginning [Error occurred:], exit with status 1, and no control
    messages after the failure point." *)
Definition reported_by_handler (o : outcome unit) (tr : list event) : Prop :=
  exit_status o = Some 1 /\
  exists log line,
    tr = log ++ [Cerr line] /\
    stderr_lines log = [] /\
    line_begins "Error occurred:" line = true.

(** "Any argument that does not parse as an unsigned 16-bit integer makes
    the program fail during port parsing": it ends with status 1 having
    opened no session. *)
Definition fails_during_port_parsing (o : outcome unit) (tr : list event) : Prop :=
  exit_status o = Some 1 /\ connections tr = [].

(** "The blueprint is used": the run asks for at most one spawn, it asks for
    it as soon as the map offers a spawn point, and the request carries
    [bp] and the first point offered. *)
Definition spawned_with (bp : ActorBlueprint) (tr : list event) : Prop :=
  match spawn_point_answers tr with
  | [Ok (spawn_point :: _)] => spawn_requests tr = [(bp, spawn_point)]
  | _ => spawn_requests tr = []
  end.

(** The pose the observer scenario of the specification expects. *)
Definition expected_observer : Transform :=
  {| location := {| loc_x := F32.of_Z (-7);
                    loc_y := F32.zero;
                    loc_z := F32.of_Z 3 |};
     rotation := {| pitch := F32.of_Z (-10);
                    yaw := F32.zero;
                    roll := F32.zero |} |}.

(** The last four events of a run that completes. *)
Definition teardown_events : list event :=
  [Cout [Str (LF ++ "Cleaning up..."); Endl];
   HandleReset h_vehicle;
   HandleReset h_actor;
   Cout [Str "Scenario completed!"; Endl]].

(* ------------------------------------------------------------------ *)
(** ** Further views of a trace *)

(** The calls made into the SDK, without their answers. *)
Definition call_of (e : event) : option sdk_call :=
  match e with
  | Call c _ => Some c
  | _ => None
  end.

Definition calls : list event -> list sdk_call := pick call_of.

(** Whether each call returned ([true]) or threw ([false]). *)
Definition answered (e : event) : option bool :=
  match e with
  | Call _ (Ok _) => Some true
  | Call _ (Throw _) => Some false
  | _ => None
  end.

Definition answers : list event -> list bool := pick answered.

(** Every answer but the last is a return. *)
Fixpoint only_last_may_throw (l : list bool) : Prop :=
  match l with
  | [] => True
  | true :: rest => only_last_may_throw rest
  | false :: rest => rest = []
  end.

Definition is_prefix {A} (l m : list A) : Prop := exists rest, m = l ++ rest.

(** The calls that follow the creation of the client, lines 39-55. *)
Definition session_setup : list sdk_call :=
  [SetTimeout 10; GetWorld; GetMap; GetBlueprintLibrary;
   Find "vehicle.tesla.model3"].

(** The actor a vehicle method is called on. *)
Definition vehicle_target (e : event) : option Actor :=
  match e with
  | Call (GetTransform a) _ => Some a
  | Call (ApplyControl a _) _ => Some a
  | Call (GetLocation a) _ => Some a
  | Call (GetVelocity a) _ => Some a
  | _ => None
  end.

(** The actors [SpawnActor] and [GetSpectator] returned. *)
Definition spawned_actor (e : event) : option Actor :=
  match e with
  | Call c r =>
      match c return result (resp c) -> option Actor with
      | SpawnActor _ _ =>
          fun r => match r with Ok a => Some a | Throw _ => None end
      | _ => fun _ => None
      end r
  | _ => None
  end.

Definition spectator_answer (e : event) : option Actor :=
  match e with
  | Call c r =>
      match c return result (resp c) -> option Actor with
      | GetSpectator =>
          fun r => match r with Ok a => Some a | Throw _ => None end
      | _ => fun _ => None
      end r
  | _ => None
  end.

(** The steps of the scenario that act on the world or on the clock. *)
Inductive mark : Type :=
| Spawn
| Slept (ms : Z)
| Placed
| Controlled.

Definition mark_of (e : event) : option mark :=
  match e with
  | Call (SpawnActor _ _) _ => Some Spawn
  | SleepFor ms => Some (Slept ms)
  | Call (SetTransform _ _) _ => Some Placed
  | Call (ApplyControl _ _) _ => Some Controlled
  | _ => None
  end.

Definition tick_marks : list mark := [Controlled; Slept 100].

(** Lines 86-145 in order: spawn, settle for a second, place the spectator,
    fifty passes of control and 100 ms, brake, two seconds. *)
Definition timeline : list mark :=
  [Spawn; Slept 1000; Placed]
  ++ List.concat (repeat tick_marks 50)
  ++ [Controlled; Slept 2000].

(** The blueprint id announced on the fall-back path (line 64). *)
Definition fallback_notice (e : event) : option string :=
  match e with
  | Cout [Str "Using vehicle: "; Str id; Endl] => Some id
  | _ => None
  end.

(** The time printed at the head of a telemetry line (line 132). *)
Definition logged_time (e : event) : option float :=
  match e with
  | Cout (Str "Time " :: Flt t :: _) => Some t
  | _ => None
  end.

Fixpoint count_from (i : Z) (n : nat) : list Z :=
  match n with
  | O => []
  | S n' => i :: count_from (i + 1) n'
  end.

(** [i * 0.1f] for an [int] i. *)
Definition time_stamp (i : Z) : float := (F32.of_Z i * F32.decimal 1 1)%f32.

(** A value whose sign bit is clear: [+0], a positive number, [+inf], or
    not a number. *)
Definition sign_clear (a : float) : Prop :=
  match a with
  | S754_zero s => s = false
  | S754_infinity s => s = false
  | S754_finite s _ _ => s = false
  | S754_nan => True
  end.

Definition is_nan (a : float) : bool :=
  match a with
  | S754_nan => true
  | _ => false
  end.

(** A velocity with some of its components negated.  [SpecFloat] has a
    single not-a-number, without the sign bit the hardware gives it, so
    negation is meant for numbers (zeros and infinities included) only. *)
Definition flip (b : bool) (a : float) : float :=
  if b then SFopp a else a.

Definition mirrored (bx by_ bz : bool) (v : Vector3D) : Vector3D :=
  {| v_x := flip bx (v_x v); v_y := flip by_ (v_y v); v_z := flip bz (v_z v) |}.

(** White space in front of the port and text behind it. *)
Fixpoint all_spaces (s : string) : bool :=
  match s with
  | EmptyString => true
  | String c r => Stoi.isspace c && all_spaces r
  end.

Definition no_leading_digit (s : string) : bool :=
  match s with
  | EmptyString => true
  | String c _ => negb (Stoi.isdigit c)
  end.

Definition minus_one_port_run : outcome unit * list event :=
  run (quiet_sdk [tesla] [origin]) forward_x garbage ["program"; "10.0.0.5"; "-1"] tt.

Definition empty_port_run : outcome unit * list event :=
  run (quiet_sdk [tesla] [origin]) forward_x garbage ["program"; "10.0.0.5"; ""] tt.

Definition lenient_port_run : outcome unit * list event :=
  run (quiet_sdk [tesla] [origin]) forward_x garbage
      ["program"; "10.0.0.5"; (" " ++ "3000" ++ "abc")%string] tt.

(* ------------------------------------------------------------------ *)
(** ** Facts about views and about the driving loop *)

Lemma pick_app {A} (f : event -> option A) (l1 l2 : list event) :
  pick f (l1 ++ l2) = pick f l1 ++ pick f l2.
Proof.
  induction l1 as [|e l1 IH]; simpl; [reflexivity|].
  destruct (f e); simpl; now rewrite IH.
Qed.

Lemma pick_none {A} (f : event -> option A) (P : event -> Prop) (l : list event) :
  (forall e, P e -> f e = None) -> Forall P l -> pick f l = [].
Proof.
  intros Hf Hl. induction Hl as [|e l He _ IH]; simpl; [reflexivity|].
  now rewrite (Hf e He).
Qed.

Lemma tick_events_loop vehicle control i sample :
  Forall (loop_event vehicle control) (tick_events vehicle control i sample).
Proof.
  destruct sample as [l v]. unfold tick_events.
  repeat constructor.
Qed.

Lemma ticks_loop vehicle control samples :
  forall i, Forall (loop_event vehicle control) (ticks vehicle control i samples).
Proof.
  induction samples as [|sample rest IH]; intros i; simpl.
  - constructor.
  - apply Forall_app. split; [apply tick_events_loop | apply IH].
Qed.

Lemma broken_tick_loop vehicle control what tail :
  broken_tick vehicle control what tail ->
  Forall (loop_event vehicle control) tail.
Proof. destruct 1; repeat constructor. Qed.

(** A cut pass ends with the call that threw. *)
Lemma broken_tick_last vehicle control what tail :
  broken_tick vehicle control what tail ->
  exists front c, tail = front ++ [Call c (Throw what)].
Proof.
  destruct 1.
  - now exists [], (ApplyControl vehicle control).
  - now exists [Call (ApplyControl vehicle control) (Ok tt)], (GetLocation vehicle).
  - now exists [Call (ApplyControl vehicle control) (Ok tt);
                Call (GetLocation vehicle) (Ok l)], (GetVelocity vehicle).
Qed.

Lemma controls_ticks vehicle control samples :
  forall i, controls (ticks vehicle control i samples)
            = repeat control (List.length samples).
Proof.
  induction samples as [|[l v] rest IH]; intros i; [reflexivity|].
  cbn [ticks List.length repeat]. unfold controls in *.
  rewrite pick_app, IH. reflexivity.
Qed.

Lemma controls_broken_tick vehicle control what tail :
  broken_tick vehicle control what tail -> controls tail = [control].
Proof. destruct 1; reflexivity. Qed.

Lemma pick_ticks_none {A} (f : event -> option A) vehicle control i samples :
  (forall e, loop_event vehicle control e -> f e = None) ->
  pick f (ticks vehicle control i samples) = [].
Proof. intros Hf. eapply pick_none; [exact Hf | apply ticks_loop]. Qed.

Lemma pick_broken_none {A} (f : event -> option A) vehicle control what tail :
  (forall e, loop_event vehicle control e -> f e = None) ->
  broken_tick vehicle control what tail ->
  pick f tail = [].
Proof.
  intros Hf Hb. eapply pick_none; [exact Hf | eapply broken_tick_loop, Hb].
Qed.

Lemma velocity_sample_broken vehicle control what tail :
  broken_tick vehicle control what tail -> pick velocity_sample tail = [].
Proof. destruct 1; reflexivity. Qed.

(* ------------------------------------------------------------------ *)
(** ** Facts about binary32 and about [std::stoi] *)

Lemma F32_mul_comm (a b : float) : (a * b = b * a)%f32.
Proof.
  destruct a as [sa|sa| |sa ma ea], b as [sb|sb| |sb mb eb];
    unfold F32.mul, SFmul; try reflexivity;
    try (now rewrite (xorb_comm sa sb)).
  now rewrite (xorb_comm sa sb), (Pos.mul_comm ma mb), (Z.add_comm ea eb).
Qed.

Lemma F32_sub_zero_r (a : float) : (a - F32.zero = a)%f32.
Proof. destruct a as [[]|[]| |s m e]; reflexivity. Qed.

Lemma F32_add_zero_r (a : float) : same_number (a + F32.zero)%f32 a.
Proof. destruct a as [[]|[]| |s m e]; simpl; auto. Qed.

Lemma same_number_refl (a : float) : same_number a a.
Proof. destruct a; simpl; auto. Qed.

Lemma digit_is_no_space_nor_sign (c : ascii) (r : string) :
  Stoi.isdigit c = true ->
  Stoi.isspace c = false /\ Stoi.read_sign (String c r) = (false, String c r).
Proof.
  destruct c as [[] [] [] [] [] [] [] []]; intros H;
    try discriminate H; split; reflexivity.
Qed.

Lemma digit_value_bounds (c : ascii) :
  Stoi.isdigit c = true -> 0 <= Stoi.digit_value c <= 9.
Proof.
  unfold Stoi.isdigit, Stoi.digit_value. intros H.
  apply andb_true_iff in H. destruct H as [H1 H2].
  apply Z.leb_le in H1. apply Z.leb_le in H2. lia.
Qed.

Lemma read_digits_all (s : string) :
  forall acc, all_digits s = true ->
    Stoi.read_digits (Some acc) s = Some (decimal_value acc s).
Proof.
  induction s as [|c r IH]; intros acc H; [reflexivity|].
  cbn [all_digits decimal_value Stoi.read_digits] in *.
  apply andb_true_iff in H. destruct H as [Hc Hr].
  rewrite Hc. now apply IH.
Qed.

Lemma decimal_value_nonneg (s : string) :
  forall acc, all_digits s = true -> 0 <= acc -> 0 <= decimal_value acc s.
Proof.
  induction s as [|c r IH]; intros acc H Hacc; [exact Hacc|].
  cbn [all_digits decimal_value] in *.
  apply andb_true_iff in H. destruct H as [Hc Hr].
  apply IH; [exact Hr|]. pose proof (digit_value_bounds c Hc). lia.
Qed.

(** The literals of the program. *)
Example literal_0_5 : F32.decimal 5 1 = S754_finite false 8388608 (-24).
Proof. reflexivity. Qed.

Example literal_3_6 : F32.decimal 36 1 = S754_finite false 15099494 (-22).
Proof. reflexivity. Qed.

Example literal_0_1 : F32.decimal 1 1 = S754_finite false 13421773 (-27).
Proof. reflexivity. Qed.

(** 3 m/s along x and 4 m/s along y are logged as 18 km/h. *)
Example speed_3_4_0 :
  speed_kmh {| v_x := F32.of_Z 3; v_y := F32.of_Z 4; v_z := F32.zero |}
  = F32.of_Z 18.
Proof. reflexivity. Qed.

(** [std::stoi] on a few arguments. *)
Example stoi_3000 : Stoi.stoi "3000" = Ok 3000.
Proof. reflexivity. Qed.

Example stoi_trailing_text : Stoi.stoi "3000abc" = Ok 3000.
Proof. reflexivity. Qed.

Example stoi_negative :
  Stoi.stoi " -1" = Ok (-1) /\ to_uint16 (-1) = 65535.
Proof. split; reflexivity. Qed.

Example stoi_70000 :
  Stoi.stoi "70000" = Ok 70000 /\ to_uint16 70000 = 4464.
Proof. split; reflexivity. Qed.

Example stoi_no_digit : Stoi.stoi "notanumber" = Throw Stoi.invalid_argument.
Proof. reflexivity. Qed.

Example stoi_too_large : Stoi.stoi "99999999999" = Throw Stoi.out_of_range.
Proof. reflexivity. Qed.

(** A string that parses as an unsigned 16-bit integer is read by
    [std::stoi] as the same value, which the conversion leaves alone. *)
Lemma stoi_u16 (s : string) (p : Z) :
  parse_u16 s = Some p ->
  Stoi.stoi s = Ok p /\ to_uint16 p = p /\ 0 <= p < 65536.
Proof.
  unfold parse_u16. destruct s as [|c r]; [discriminate|].
  destruct (all_digits (String c r)) eqn:Hd; [|discriminate].
  pose proof (decimal_value_nonneg _ 0 Hd (Z.le_refl 0)) as Hge.
  assert (Hv : Stoi.read_digits None (String c r)
               = Some (decimal_value 0 (String c r))).
  { cbn [all_digits] in Hd. apply andb_true_iff in Hd. destruct Hd as [Hc Hr].
    cbn [Stoi.read_digits decimal_value]. rewrite Hc.
    now apply read_digits_all. }
  assert (Hc : Stoi.isdigit c = true).
  { cbn [all_digits] in Hd. now apply andb_true_iff in Hd. }
  destruct (digit_is_no_space_nor_sign c r Hc) as [Hsp Hsign].
  revert Hge Hv. generalize (decimal_value 0 (String c r)). intros v Hge Hv.
  destruct (v <? 65536) eqn:Hlt; [|discriminate].
  cbn [andb]. intros [= <-]. apply Z.ltb_lt in Hlt.
  split; [|split; [|lia]].
  - unfold Stoi.stoi. cbn [Stoi.skip_spaces]. rewrite Hsp, Hsign, Hv.
    replace (_ || _) with false; [reflexivity|].
    symmetry. apply orb_false_iff.
    change Stoi.INT_MIN with (-2147483648).
    change Stoi.INT_MAX with 2147483647.
    split; apply Z.ltb_ge; lia.
  - unfold to_uint16. apply Z.mod_small. lia.
Qed.

(** Run the statements at the head of [H] until a call into the SDK, a
    loop or a test on an unknown value blocks. *)
Ltac reduce_in H :=
  cbv beta iota zeta
      delta [bind ret call emit cout cerr sleep_for reset lift return_ exit
             try_catch throttle steer brake default_control
             read_at_spawn] in H.

Section DriverFacts.

Context {St : Type}.
Variable sdk : forall c : sdk_call, St -> result (resp c) * St.
Variable GetForwardVector : Transform -> Vector3D.

(** What the driving loop leaves on the trace: complete passes, then
    either nothing (all [n] passes done) or one cut pass. *)
Lemma for_drive_tick vehicle control n :
  forall i s tr o s' tr',
    for_ n i (drive_tick sdk vehicle control) (s, tr) = (o, (s', tr')) ->
    exists samples,
      (o = Normal tt /\ List.length samples = n /\
       tr' = tr ++ ticks vehicle control i samples)
      \/
      (exists what tail,
          o = Thrown what /\ (List.length samples < n)%nat /\
          broken_tick vehicle control what tail /\
          tr' = tr ++ ticks vehicle control i samples ++ tail).
Proof.
  induction n as [|n IH]; intros i s tr o s' tr' H.
  - simpl for_ in H. reduce_in H. injection H as <- _ <-.
    exists []. left. repeat split. now rewrite app_nil_r.
  - simpl for_ in H. unfold drive_tick at 1 in H. reduce_in H.
    destruct (sdk (ApplyControl vehicle control) s) as [[[]|what] s1];
      reduce_in H.
    2:{ injection H as <- _ <-. exists []. right.
        exists what, [Call (ApplyControl vehicle control) (Throw what)].
        repeat split; [simpl; lia | constructor]. }
    destruct (sdk (GetLocation vehicle) s1) as [[l|what] s2];
      reduce_in H.
    2:{ injection H as <- _ <-. exists []. right.
        exists what, [Call (ApplyControl vehicle control) (Ok tt);
                      Call (GetLocation vehicle) (Throw what)].
        repeat split; [simpl; lia | constructor | now rewrite <- app_assoc]. }
    destruct (sdk (GetVelocity vehicle) s2) as [[v|what] s3];
      reduce_in H.
    2:{ injection H as <- _ <-. exists []. right.
        exists what, [Call (ApplyControl vehicle control) (Ok tt);
                      Call (GetLocation vehicle) (Ok l);
                      Call (GetVelocity vehicle) (Throw what)].
        repeat split; [simpl; lia | constructor | now rewrite <- !app_assoc]. }
    apply IH in H. destruct H as [samples H].
    exists ((l, v) :: samples).
    destruct H as [(-> & Hlen & ->) | (what & tail & -> & Hlen & Hb & ->)].
    + left. repeat split; [simpl; lia|].
      cbn [ticks tick_events]. now rewrite <- !app_assoc.
    + right. exists what, tail. repeat split; [simpl; lia | exact Hb |].
      cbn [ticks tick_events]. now rewrite <- !app_assoc.
Qed.

End DriverFacts.

(** One step of a case analysis on how a run went: split on the answer of
    the SDK call, the loop or the test that blocks [H]. *)
Ltac run_step H :=
  match type of H with
  | context [?sdk ?c ?s] =>
      match type of sdk with
      | forall c : sdk_call, _ -> (result (resp c) * _)%type =>
          destruct (sdk c s) as [[?|?what] ?s]; reduce_in H
      end
  | context [for_ ?n ?i ?body ?w] =>
      let Hloop := fresh "Hloop" in
      let samples := fresh "samples" in
      let what := fresh "what" in
      let tail := fresh "tail" in
      let Hlen := fresh "Hlen" in
      let Hb := fresh "Hbroken" in
      destruct (for_ n i body w) as [? [? ?]] eqn:Hloop;
      apply for_drive_tick in Hloop;
      destruct Hloop
        as [samples [(-> & Hlen & ->) | (what & tail & -> & Hlen & Hb & ->)]];
      reduce_in H
  | context [if ?b then _ else _] => destruct b eqn:?; reduce_in H
  | context [match ?r with Ok _ => _ | Throw _ => _ end] =>
      destruct r eqn:?; reduce_in H
  | context [match ?o with Some _ => _ | None => _ end] =>
      destruct o; reduce_in H
  | context [match ?l with [] => _ | _ :: _ => _ end] =>
      destruct l; reduce_in H
  end.

Ltac run_cases H :=
  unfold run, main, try_block in H; cbv zeta in H;
  match type of H with
  | context [if 1 <? ?argc then ?arg else ?default] =>
      let host := fresh "host" in
      let Hhost := fresh "Hhost" in
      remember (if 1 <? argc then arg else default) as host eqn:Hhost
  end;
  reduce_in H;
  repeat run_step H;
  apply pair_equal_spec in H; destruct H as [<- <-].

(** Compute a view of a trace that is known up to the passes of the loop. *)
Ltac views :=
  unfold spawned_with, controls, stderr_lines, spawn_requests, connections,
         library_queries, spawn_point_answers, calls, answers in *;
  repeat first
    [ progress cbn [pick app control_of stderr_of spawn_of destroy_of
                    connect_of library_query spawn_point_answer
                    transform_sample set_transform_of telemetry_read
                    velocity_sample release_of mutation_of
                    call_of answered vehicle_target spawned_actor
                    spectator_answer mark_of logged_time append LF
                    fallback_notice]
    | rewrite pick_app ].

Lemma snoc4 {A} (l : list A) (a b c d : A) :
  (((l ++ [a]) ++ [b]) ++ [c]) ++ [d] = l ++ [a; b; c; d].
Proof. now rewrite <- !app_assoc. Qed.

(** Views that the driving loop does not contribute to. *)
Ltac skip_loop :=
  repeat match goal with
  | |- context [pick ?f (ticks ?v ?c ?i ?l)] =>
      rewrite (pick_ticks_none f v c i l) by (intros ? []; reflexivity)
  | Hb : broken_tick ?v ?c ?w ?tail |- context [pick ?f ?tail] =>
      rewrite (pick_broken_none f v c w tail) by
        first [exact Hb | intros ? []; reflexivity]
  end.

(** Close a goal that is a disjunction of descriptions of a trace whose
    views have been computed. *)
Ltac describe :=
  solve [ repeat match goal with
                 | |- exists _, _ => eexists
                 | |- _ /\ _ => split
                 end; reflexivity ].

Ltac find_case_from depth :=
  first [ describe | left; describe | right; find_case_from depth ].

Ltac find_case := find_case_from tt.

Section RunProperties.

Context {St : Type}.
Variable sdk : forall c : sdk_call, St -> result (resp c) * St.
Variable GetForwardVector : Transform -> Vector3D.
Variable stale_blueprint : ActorBlueprint.

(** C1.  In every run that reaches completion, the control messages sent
    are exactly fifty messages with throttle 0.5, steer 0 and brake 0
    followed by one message with throttle 0, steer 0 and brake 1, and
    nothing else. *)
Theorem completed_run_controls (argv : list string) (s0 : St)
    (o : outcome unit) (tr : list event) :
  run sdk GetForwardVector stale_blueprint argv s0 = (o, tr) ->
  exit_status o = Some 0 ->
  controls tr = repeat driving_control 50 ++ [braking_control].
Proof.
  intros H. run_cases H.
  all: intros Hs; try discriminate Hs.
  all: views; fold controls; rewrite controls_ticks, Hlen; reflexivity.
Qed.

(** C2, as amended.  A run that does not complete ends in one of two
    ways.  When a [std::exception] was thrown (by [std::stoi] before
    anything was written, or by the SDK call that is the last event of the
    log), the handler writes the single stderr line
    [Error occurred: <what>] and leaves through [std::exit(1)].  When the
    wildcard filter or the spawn-point list came back empty, the program
    writes the single stderr line [Error: No vehicle blueprints found] or
    [Error: No spawn points found] itself and returns 1 from [main].  In
    both cases the diagnostic is the last event of the run. *)
Theorem failed_run_report (argv : list string) (s0 : St)
    (o : outcome unit) (tr : list event) :
  run sdk GetForwardVector stale_blueprint argv s0 = (o, tr) ->
  exit_status o <> Some 0 ->
  (exists what log,
      o = Exited 1 /\
      tr = log ++ [Cerr [Str "Error occurred: "; Str what; Endl]] /\
      stderr_lines log = [] /\
      ((log = [] /\ Stoi.stoi (nth 2 argv "") = Throw what) \/
       exists front c, log = front ++ [Call c (Throw what)]))
  \/
  (exists msg log,
      o = Returned 1 /\
      tr = log ++ [Cerr [Str msg; Endl]] /\
      stderr_lines log = [] /\
      ((msg = "Error: No vehicle blueprints found" /\
        exists front, log = front ++ [Call (Filter "vehicle.*") (Ok [])]) \/
       (msg = "Error: No spawn points found" /\
        exists front, log = front ++ [Call GetRecommendedSpawnPoints (Ok [])]))).
Proof.
  intros H. run_cases H.
  all: intros Hne; try (exfalso; apply Hne; reflexivity).
  all: lazymatch goal with
       | |- (exists _ _, Exited 1 = _ /\ _) \/ _ =>
           left; eexists _, _; split; [reflexivity|];
           split; [reflexivity|];
           split; [views; skip_loop; reflexivity|]
       | |- (exists _ _, Returned 1 = _ /\ _) \/ _ =>
           right; eexists _, _; split; [reflexivity|];
           split; [reflexivity|];
           split; [views; skip_loop; reflexivity|]
       end.
  all: try (left; split; [reflexivity|]; first [assumption | eexists; reflexivity]).
  all: try (right; split; [reflexivity|]; eexists; reflexivity).
  all: try (right; eexists _, _; reflexivity).
  all: right; destruct (broken_tick_last _ _ _ _ Hbroken) as (front & c & ->);
    eexists _, c; rewrite !app_assoc; reflexivity.
Qed.

(** C3.  Once the transform [T] of the vehicle has been sampled, the run
    calls [SetTransform] exactly once, on the actor [GetSpectator]
    returned, with the pose computed from that single sample and its
    forward vector [f]; the sample is the only one of the run and is taken
    on the spawned actor.  Nothing is placed without a sample, and a run
    that completes has taken one.  The pose is [x = T.x - 7 f.x],
    [y = T.y - 7 f.y], [z = T.z + 3], which is
    [T.location - 7 (f.x, f.y, 0) + (0, 0, 3)], with pitch -10 and the yaw
    and roll of [T].  For a vehicle at the origin with no rotation and
    forward vector (1, 0, 0) that is location (-7, 0, 3) and rotation
    (pitch -10, yaw 0, roll 0). *)
Theorem spectator_placement (argv : list string) (s0 : St)
    (o : outcome unit) (tr : list event) :
  run sdk GetForwardVector stale_blueprint argv s0 = (o, tr) ->
  (forall vehicle T,
      In (vehicle, Ok T) (pick transform_sample tr) ->
      pick transform_sample tr = [(vehicle, Ok T)] /\
      pick spawned_actor tr = [vehicle] /\
      exists spectator,
        pick spectator_answer tr = [spectator] /\
        pick set_transform_of tr
        = [(spectator, spectator_pose T (GetForwardVector T))])
  /\
  (forall placed,
      In placed (pick set_transform_of tr) ->
      exists vehicle T, pick transform_sample tr = [(vehicle, Ok T)])
  /\
  (exit_status o = Some 0 ->
   exists vehicle T, pick transform_sample tr = [(vehicle, Ok T)])
  /\
  (forall T f,
      let P := spectator_pose T f in
      loc_x (location P) = (loc_x (location T) - F32.of_Z 7 * v_x f)%f32 /\
      loc_y (location P) = (loc_y (location T) - F32.of_Z 7 * v_y f)%f32 /\
      loc_z (location P) = (loc_z (location T) + F32.of_Z 3)%f32 /\
      same_place (location P) (observer_location_spec T f) /\
      rotation P = observer_rotation_spec T)
  /\
  spectator_pose origin unit_x = expected_observer.
Proof.
  intros H.
  match goal with
  | |- ?A /\ ?B /\ ?C /\ _ => assert (Hrun : A /\ B /\ C)
  end.
  { run_cases H.
    all: split; [|split].
    all: lazymatch goal with
         | |- forall vehicle T, In _ _ -> _ =>
             intros vehicle T; views; skip_loop; cbn [In]; intros Hin;
             first
               [ solve [destruct Hin]
               | destruct Hin as [Hin | []];
                 first
                   [ discriminate Hin
                   | injection Hin as <- <-;
                     split; [reflexivity|]; split; [reflexivity|];
                     eexists; split; reflexivity ] ]
         | |- forall placed, In _ _ -> _ =>
             intros placed; views; skip_loop; cbn [In]; intros Hin;
             first [ solve [destruct Hin] | eexists _, _; reflexivity ]
         | |- _ = Some 0 -> _ =>
             intros Hs;
             first [ discriminate Hs
                   | views; skip_loop; eexists _, _; reflexivity ]
         end. }
  destruct Hrun as (H1 & H2 & H3).
  split; [exact H1|]. split; [exact H2|]. split; [exact H3|]. split.
  - intros T f. cbv zeta.
    unfold spectator_pose, observer_location_spec, observer_rotation_spec,
      same_place, plus, minus, scale.
    cbn [location rotation loc_x loc_y loc_z v_x v_y v_z].
    rewrite !(F32_mul_comm (F32.of_Z 7)).
    repeat split.
    + generalize (loc_x (location T) - v_x f * F32.of_Z 7)%f32. intros a.
      destruct a as [[]|[]| |s m e]; simpl; auto.
    + generalize (loc_y (location T) - v_y f * F32.of_Z 7)%f32. intros a.
      destruct a as [[]|[]| |s m e]; simpl; auto.
    + change (F32.zero * F32.of_Z 7)%f32 with F32.zero.
      rewrite F32_sub_zero_r. apply same_number_refl.
  - reflexivity.
Qed.

(** C5.  No run ever calls [Destroy] on an actor.  A run that ends with
    status 0 ends through [std::exit(0)], not by returning from [main],
    and the last things it does before are: announce the clean-up, release
    the vehicle handle, release the actor handle, report completion. *)
Theorem exit_without_destroy (argv : list string) (s0 : St)
    (o : outcome unit) (tr : list event) :
  run sdk GetForwardVector stale_blueprint argv s0 = (o, tr) ->
  pick destroy_of tr = [] /\
  (exit_status o = Some 0 ->
   o = Exited 0 /\
   exists log,
     tr = log ++ teardown_events /\
     pick release_of log = []).
Proof.
  intros H. run_cases H.
  all: split; [views; skip_loop; reflexivity|].
  all: intros Hs; try discriminate Hs.
  all: split; [reflexivity|].
  all: eexists; split; [apply snoc4|].
  all: views; skip_loop; reflexivity.
Qed.

(** The session a run opens, read off its arguments: either [std::stoi]
    threw on the second argument and nothing but the diagnostic was
    written, or the first line announces and the client is created with
    the first argument (default [localhost]) and the converted second
    argument (default 2000). *)
Lemma run_connection (argv : list string) (s0 : St)
    (o : outcome unit) (tr : list event) :
  run sdk GetForwardVector stale_blueprint argv s0 = (o, tr) ->
  let argc := Z.of_nat (List.length argv) in
  let host := if 1 <? argc then nth 1 argv "" else "localhost" in
  ((2 <? argc) = true /\
   exists what,
     Stoi.stoi (nth 2 argv "") = Throw what /\
     o = Exited 1 /\
     tr = [Cerr [Str "Error occurred: "; Str what; Endl]])
  \/
  (exists port,
      (((2 <? argc) = true /\
        exists n, Stoi.stoi (nth 2 argv "") = Ok n /\ port = to_uint16 n)
       \/ ((2 <? argc) = false /\ port = 2000)) /\
      connections tr = [(host, port)] /\
      hd_error tr = Some (Cout [Str "Connecting to CARLA server: ";
                                Str host; Str ":"; Num port; Endl])).
Proof.
  intros H. cbv zeta. run_cases H.
  all: first
    [ left; split; [reflexivity|]; eexists; split; [reflexivity|];
      split; reflexivity
    | right; eexists; split;
      [ first [ left; split; [reflexivity|]; eexists; split; reflexivity
              | right; split; reflexivity ]
      | split; [views; skip_loop; reflexivity | reflexivity] ] ].
Qed.

(** A run with at least two arguments, by what [std::stoi] makes of the
    second. *)
Lemma run_with_port_argument (prog H P : string) (rest : list string)
    (s0 : St) (o : outcome unit) (tr : list event) :
  run sdk GetForwardVector stale_blueprint (prog :: H :: P :: rest) s0 = (o, tr) ->
  match Stoi.stoi P with
  | Ok n => connections tr = [(H, to_uint16 n)]
  | Throw what =>
      o = Exited 1 /\ tr = [Cerr [Str "Error occurred: "; Str what; Endl]]
  end.
Proof.
  intros Hrun. apply run_connection in Hrun. cbv zeta in Hrun.
  assert (H2 : (2 <? Z.of_nat (List.length (prog :: H :: P :: rest))) = true).
  { apply Z.ltb_lt. cbn [List.length]. lia. }
  assert (H1 : (1 <? Z.of_nat (List.length (prog :: H :: P :: rest))) = true).
  { apply Z.ltb_lt. cbn [List.length]. lia. }
  rewrite H1, H2 in Hrun. cbn [nth] in Hrun.
  destruct Hrun as [(_ & what & -> & Ho & Htr)
                   | (port & [(_ & n & -> & ->) | (Hf & _)] & Hc & _)].
  - now split.
  - exact Hc.
  - discriminate Hf.
Qed.

(** C6, as amended.  The second argument is read by [std::stoi] and
    converted to [uint16_t].  When [std::stoi] returns [n], the argument
    is accepted and the port is [n mod 65536]; for an argument that parses
    as an unsigned 16-bit integer that is the argument's own value.  When
    [std::stoi] throws, as on [notanumber], the program fails during port
    parsing: it writes only [Error occurred: <what>] and exits with
    status 1. *)
Theorem second_argument_as_port (prog H P : string) (rest : list string) (s0 : St)
    (o : outcome unit) (tr : list event) :
  run sdk GetForwardVector stale_blueprint (prog :: H :: P :: rest) s0 = (o, tr) ->
  match Stoi.stoi P with
  | Ok n => connections tr = [(H, to_uint16 n)]
  | Throw what =>
      o = Exited 1 /\ tr = [Cerr [Str "Error occurred: "; Str what; Endl]]
  end
  /\ (forall p, parse_u16 P = Some p -> connections tr = [(H, p)])
  /\ Stoi.stoi "notanumber" = Throw Stoi.invalid_argument.
Proof.
  intros Hrun. pose proof (run_with_port_argument _ _ _ _ _ _ _ Hrun) as Hm.
  split; [exact Hm|]. split; [|reflexivity].
  intros p Hp. apply stoi_u16 in Hp. destruct Hp as (Hs & Hconv & _).
  rewrite Hs in Hm. now rewrite Hconv in Hm.
Qed.

(** C7.  Without arguments the session is opened to [localhost:2000];
    with one argument [H], to [H:2000]; with a second argument [P] that is
    a decimal numeral of an unsigned 16-bit value [p], to [H:p]; and what
    follows the second argument changes nothing in the run. *)
Theorem argument_handling (argv : list string) (s0 : St)
    (o : outcome unit) (tr : list event) :
  run sdk GetForwardVector stale_blueprint argv s0 = (o, tr) ->
  (forall prog, argv = [prog] -> connections tr = [("localhost", 2000)])
  /\
  (forall prog H, argv = [prog; H] -> connections tr = [(H, 2000)])
  /\
  (forall prog H P rest p,
      argv = prog :: H :: P :: rest ->
      parse_u16 P = Some p ->
      connections tr = [(H, p)])
  /\
  (forall prog H P rest,
      argv = prog :: H :: P :: rest ->
      run sdk GetForwardVector stale_blueprint [prog; H; P] s0 = (o, tr)).
Proof.
  intros Hrun. pose proof (run_connection _ _ _ _ Hrun) as Hc.
  cbv zeta in Hc. split; [|split; [|split]].
  - intros prog ->. cbn in Hc.
    destruct Hc as [(Hf & _) | (port & [(Hf & _) | (_ & ->)] & Hc & _)];
      [discriminate Hf | discriminate Hf | exact Hc].
  - intros prog H ->. cbn in Hc.
    destruct Hc as [(Hf & _) | (port & [(Hf & _) | (_ & ->)] & Hc & _)];
      [discriminate Hf | discriminate Hf | exact Hc].
  - intros prog H P rest p -> Hp.
    pose proof (run_with_port_argument _ _ _ _ _ _ _ Hrun) as Hm.
    apply stoi_u16 in Hp. destruct Hp as (Hs & Hconv & _).
    rewrite Hs in Hm. now rewrite Hconv in Hm.
  - intros prog H P rest ->. rewrite <- Hrun.
    unfold run, main, try_block. cbv zeta.
    assert (E2 : (2 <? Z.of_nat (List.length (prog :: H :: P :: rest))) = true).
    { apply Z.ltb_lt. cbn [List.length]. lia. }
    assert (E1 : (1 <? Z.of_nat (List.length (prog :: H :: P :: rest))) = true).
    { apply Z.ltb_lt. cbn [List.length]. lia. }
    rewrite E1, E2. reflexivity.
Qed.

(** C8.  Every run is a prologue without any read of location or velocity
    and without any control message, then a number of complete passes of
    the driving loop (at most fifty; exactly fifty when the run
    completes), then a rest in which no velocity is obtained any more.  A
    complete pass sends the control message, then reads the location
    once, then the velocity [v] once, then logs the speed
    [3.6 * sqrt (v.x^2 + v.y^2 + v.z^2)] computed in binary32, then
    sleeps 100 ms. *)
Theorem telemetry_per_tick (argv : list string) (s0 : St)
    (o : outcome unit) (tr : list event) :
  run sdk GetForwardVector stale_blueprint argv s0 = (o, tr) ->
  (exists vehicle prologue samples rest,
      tr = prologue ++ ticks vehicle driving_control 0 samples ++ rest /\
      pick telemetry_read prologue = [] /\
      controls prologue = [] /\
      pick velocity_sample rest = [] /\
      (List.length samples <= 50)%nat /\
      (exit_status o = Some 0 ->
       List.length samples = 50%nat /\ pick telemetry_read rest = []))
  /\
  (forall vehicle control i l v,
      tick_events vehicle control i (l, v)
      = [Call (ApplyControl vehicle control) (Ok tt);
         Call (GetLocation vehicle) (Ok l);
         Call (GetVelocity vehicle) (Ok v);
         Cout [Str "Time "; Flt (F32.of_Z i * F32.decimal 1 1)%f32;
               Str "s - "; Str "Position: ("; Flt (loc_x l); Str ", ";
               Flt (loc_y l); Str ", "; Flt (loc_z l); Str ") ";
               Str "Speed: "; Flt (speed_spec v); Str " km/h"; Endl];
         SleepFor 100]).
Proof.
  intros H. split.
  2:{ intros vehicle control i l v. unfold tick_events, speed_kmh, speed_spec, norm2.
      now rewrite (F32_mul_comm (F32.decimal 36 1)). }
  run_cases H.
  all: lazymatch goal with
       | |- context [?p ++ ticks ?v ?c ?i ?l] =>
           let prologue := fresh "prologue" in
           let Hp := fresh "Hp" in
           remember p as prologue eqn:Hp;
           rewrite <- ?app_assoc;
           exists v, prologue, l; eexists;
           split; [reflexivity|];
           subst prologue
       | |- context [?p ++ ticks ?v ?c ?i ?l ++ ?t] =>
           let prologue := fresh "prologue" in
           let Hp := fresh "Hp" in
           remember p as prologue eqn:Hp;
           rewrite <- ?app_assoc;
           exists v, prologue, l; eexists;
           split; [reflexivity|];
           subst prologue
       | |- _ =>
           eexists {| actor_id := 0 |}, _, [], _;
           split; [cbn [ticks app]; symmetry; apply app_nil_r|]
       end.
  all: split; [views; skip_loop; reflexivity|].
  all: split; [views; skip_loop; reflexivity|].
  all: split;
    [views; rewrite ?(velocity_sample_broken _ _ _ _ Hbroken); reflexivity|].
  all: split; [cbn [List.length]; lia|].
  all: intros Hs; try discriminate Hs.
  all: split; [assumption | views; reflexivity].
Qed.

(** C9.  When the map answers the request for its recommended spawn
    points, that answer is the only one of the run.  If the list is empty
    the program writes [Error: No spawn points found] as its only stderr
    line and returns 1 without a spawn request.  If it is not, the run
    makes exactly one spawn request, with the first point of the list
    (index 0).  No spawn is ever requested with anything but the first
    point the map answered. *)
Theorem spawn_point_selection (argv : list string) (s0 : St)
    (o : outcome unit) (tr : list event) :
  run sdk GetForwardVector stale_blueprint argv s0 = (o, tr) ->
  (forall points,
      In (Ok points) (spawn_point_answers tr) ->
      spawn_point_answers tr = [Ok points] /\
      match points with
      | [] =>
          o = Returned 1 /\
          exit_status o = Some 1 /\
          stderr_lines tr = [[Str "Error: No spawn points found"; Endl]] /\
          spawn_requests tr = []
      | spawn_point :: _ =>
          exists bp, spawn_requests tr = [(bp, spawn_point)]
      end)
  /\
  (forall bp spawn_point,
      In (bp, spawn_point) (spawn_requests tr) ->
      exists others,
        spawn_point_answers tr = [Ok (spawn_point :: others)] /\
        spawn_requests tr = [(bp, spawn_point)]).
Proof.
  intros H. run_cases H.
  all: split.
  all: lazymatch goal with
       | |- forall points, In _ _ -> _ =>
           intros points; views; skip_loop; cbn [In]; intros Hin;
           first
             [ solve [destruct Hin]
             | destruct Hin as [Hin | []];
               first
                 [ discriminate Hin
                 | injection Hin as <-;
                   split; [reflexivity|];
                   first [ eexists; reflexivity
                         | split; [reflexivity|]; split; [reflexivity|];
                           split; reflexivity ] ] ]
       | |- forall bp spawn_point, In _ _ -> _ =>
           intros bp spawn_point; views; skip_loop; cbn [In]; intros Hin;
           first
             [ solve [destruct Hin]
             | destruct Hin as [Hin | []]; injection Hin as <- <-;
               eexists; split; reflexivity ]
       end.
Qed.

(** C10.  A run in which the wildcard filter or the spawn-point list came
    back empty returns 1 from [main] having sent nothing that changes the
    remote world (no spawn request, no control message, no transform, no
    destroy); its only stderr line is its last event, written by the
    program itself: it begins with [Error:] and not with
    [Error occurred:]. *)
Theorem resource_absence (argv : list string) (s0 : St)
    (o : outcome unit) (tr : list event) :
  run sdk GetForwardVector stale_blueprint argv s0 = (o, tr) ->
  In (Filtered "vehicle.*" (Ok [])) (library_queries tr) \/
  In (Ok []) (spawn_point_answers tr) ->
  o = Returned 1 /\
  exit_status o = Some 1 /\
  spawn_requests tr = [] /\
  controls tr = [] /\
  pick mutation_of tr = [] /\
  exists log msg,
    tr = log ++ [Cerr [Str msg; Endl]] /\
    stderr_lines log = [] /\
    prefix "Error:" msg = true /\
    prefix "Error occurred:" msg = false.
Proof.
  intros H. run_cases H.
  all: intros Hin.
  all: first
    [ exfalso; revert Hin; views; skip_loop; cbn [In];
      solve [intuition discriminate]
    | clear Hin;
      split; [reflexivity|]; split; [reflexivity|];
      split; [views; reflexivity|]; split; [views; reflexivity|];
      split; [views; reflexivity|];
      eexists _, _; split; [reflexivity|];
      split; [views; reflexivity|]; split; reflexivity ].
Qed.

End RunProperties.

(* ------------------------------------------------------------------ *)
(** ** The theorems at concrete runs *)

Lemma completed_run_controls_witness :
  completed_run = (Exited 0, snd completed_run) /\
  (exit_status (@Exited unit 0) = Some 0) /\
  (controls (snd completed_run) = repeat driving_control 50 ++ [braking_control]).
Proof.
  assert (Hrun : completed_run = (Exited 0, snd completed_run))
    by (vm_compute; reflexivity).
  split; [exact Hrun|].
  assert (Hyp0 : exit_status (@Exited unit 0) = Some 0)
    by (reflexivity).
  split; [exact Hyp0|].
  exact (completed_run_controls _ _ _ _ _ _ _ Hrun Hyp0).
Defined.

Lemma failed_run_report_witness :
  collision_run = (Exited 1, snd collision_run) /\
  (exit_status (@Exited unit 1) <> Some 0) /\
  ((exists what log,
      (@Exited unit 1) = Exited 1 /\
      (snd collision_run) = log ++ [Cerr [Str "Error occurred: "; Str what; Endl]] /\
      stderr_lines log = [] /\
      ((log = [] /\ Stoi.stoi (nth 2 ["program"] "") = Throw what) \/
       exists front c, log = front ++ [Call c (Throw what)]))
  \/
  (exists msg log,
      (@Exited unit 1) = Returned 1 /\
      (snd collision_run) = log ++ [Cerr [Str msg; Endl]] /\
      stderr_lines log = [] /\
      ((msg = "Error: No vehicle blueprints found" /\
        exists front, log = front ++ [Call (Filter "vehicle.*") (Ok [])]) \/
       (msg = "Error: No spawn points found" /\
        exists front, log = front ++ [Call GetRecommendedSpawnPoints (Ok [])])))).
Proof.
  assert (Hrun : collision_run = (Exited 1, snd collision_run))
    by (vm_compute; reflexivity).
  split; [exact Hrun|].
  assert (Hyp0 : exit_status (@Exited unit 1) <> Some 0)
    by (discriminate).
  split; [exact Hyp0|].
  exact (failed_run_report _ _ _ _ _ _ _ Hrun Hyp0).
Defined.

Lemma exit_without_destroy_witness :
  completed_run = (Exited 0, snd completed_run) /\
  (pick destroy_of (snd completed_run) = [] /\
  (exit_status (@Exited unit 0) = Some 0 ->
   (@Exited unit 0) = Exited 0 /\
   exists log,
     (snd completed_run) = log ++ teardown_events /\
     pick release_of log = [])).
Proof.
  assert (Hrun : completed_run = (Exited 0, snd completed_run))
    by (vm_compute; reflexivity).
  split; [exact Hrun|].
  exact (exit_without_destroy _ _ _ _ _ _ _ Hrun ).
Defined.

Lemma second_argument_as_port_witness :
  port_3000_run = (Exited 0, snd port_3000_run) /\
  (match Stoi.stoi "3000" with
  | Ok n => connections (snd port_3000_run) = [("10.0.0.5", to_uint16 n)]
  | Throw what =>
      (@Exited unit 0) = Exited 1 /\ (snd port_3000_run) = [Cerr [Str "Error occurred: "; Str what; Endl]]
  end
  /\ (forall p, parse_u16 "3000" = Some p -> connections (snd port_3000_run) = [("10.0.0.5", p)])
  /\ Stoi.stoi "notanumber" = Throw Stoi.invalid_argument).
Proof.
  assert (Hrun : port_3000_run = (Exited 0, snd port_3000_run))
    by (vm_compute; reflexivity).
  split; [exact Hrun|].
  exact (second_argument_as_port _ _ _ _ _ _ _ _ _ _ Hrun ).
Defined.

Lemma argument_handling_witness :
  port_3000_run = (Exited 0, snd port_3000_run) /\
  ((forall prog, ["program"; "10.0.0.5"; "3000"] = [prog] -> connections (snd port_3000_run) = [("localhost", 2000)])
  /\
  (forall prog H, ["program"; "10.0.0.5"; "3000"] = [prog; H] -> connections (snd port_3000_run) = [(H, 2000)])
  /\
  (forall prog H P rest p,
      ["program"; "10.0.0.5"; "3000"] = prog :: H :: P :: rest ->
      parse_u16 P = Some p ->
      connections (snd port_3000_run) = [(H, p)])
  /\
  (forall prog H P rest,
      ["program"; "10.0.0.5"; "3000"] = prog :: H :: P :: rest ->
      run (quiet_sdk [tesla] [origin]) forward_x garbage [prog; H; P] tt = ((@Exited unit 0), (snd port_3000_run)))).
Proof.
  assert (Hrun : port_3000_run = (Exited 0, snd port_3000_run))
    by (vm_compute; reflexivity).
  split; [exact Hrun|].
  exact (argument_handling _ _ _ _ _ _ _ Hrun ).
Defined.

Lemma telemetry_per_tick_witness :
  completed_run = (Exited 0, snd completed_run) /\
  ((exists vehicle prologue samples rest,
      (snd completed_run) = prologue ++ ticks vehicle driving_control 0 samples ++ rest /\
      pick telemetry_read prologue = [] /\
      controls prologue = [] /\
      pick velocity_sample rest = [] /\
      (List.length samples <= 50)%nat /\
      (exit_status (@Exited unit 0) = Some 0 ->
       List.length samples = 50%nat /\ pick telemetry_read rest = []))
  /\
  (forall vehicle control i l v,
      tick_events vehicle control i (l, v)
      = [Call (ApplyControl vehicle control) (Ok tt);
         Call (GetLocation vehicle) (Ok l);
         Call (GetVelocity vehicle) (Ok v);
         Cout [Str "Time "; Flt (F32.of_Z i * F32.decimal 1 1)%f32;
               Str "s - "; Str "Position: ("; Flt (loc_x l); Str ", ";
               Flt (loc_y l); Str ", "; Flt (loc_z l); Str ") ";
               Str "Speed: "; Flt (speed_spec v); Str " km/h"; Endl];
         SleepFor 100])).
Proof.
  assert (Hrun : completed_run = (Exited 0, snd completed_run))
    by (vm_compute; reflexivity).
  split; [exact Hrun|].
  exact (telemetry_per_tick _ _ _ _ _ _ _ Hrun ).
Defined.

Lemma resource_absence_witness :
  no_blueprint_run = (Returned 1, snd no_blueprint_run) /\
  (In (Filtered "vehicle.*" (Ok [])) (library_queries (snd no_blueprint_run)) \/
    In (Ok []) (spawn_point_answers (snd no_blueprint_run))) /\
  ((@Returned unit 1) = Returned 1 /\
  exit_status (@Returned unit 1) = Some 1 /\
  spawn_requests (snd no_blueprint_run) = [] /\
  controls (snd no_blueprint_run) = [] /\
  pick mutation_of (snd no_blueprint_run) = [] /\
  exists log msg,
    (snd no_blueprint_run) = log ++ [Cerr [Str msg; Endl]] /\
    stderr_lines log = [] /\
    prefix "Error:" msg = true /\
    prefix "Error occurred:" msg = false).
Proof.
  assert (Hrun : no_blueprint_run = (Returned 1, snd no_blueprint_run))
    by (vm_compute; reflexivity).
  split; [exact Hrun|].
  assert (Hyp0 : In (Filtered "vehicle.*" (Ok [])) (library_queries (snd no_blueprint_run)) \/
        In (Ok []) (spawn_point_answers (snd no_blueprint_run)))
    by (left; vm_compute; auto).
  split; [exact Hyp0|].
  exact (resource_absence _ _ _ _ _ _ _ Hrun Hyp0).
Defined.

Lemma spectator_placement_witness :
  completed_run = (Exited 0, snd completed_run) /\
  In ({| actor_id := 24 |}, Ok origin)
     (pick transform_sample (snd completed_run)) /\
  pick spawned_actor (snd completed_run) = [{| actor_id := 24 |}] /\
  pick set_transform_of (snd completed_run)
  = [({| actor_id := 1 |}, expected_observer)].
Proof.
  assert (Hrun : completed_run = (Exited 0, snd completed_run))
    by (vm_compute; reflexivity).
  assert (Hin : In ({| actor_id := 24 |}, Ok origin)
                   (pick transform_sample (snd completed_run)))
    by (vm_compute; auto).
  split; [exact Hrun|]. split; [exact Hin|].
  destruct (spectator_placement (quiet_sdk [tesla] [origin]) forward_x garbage
              _ _ _ _ Hrun) as (Hplace & _ & _ & _ & Hexample).
  destruct (Hplace _ _ Hin) as (_ & Hspawned & spectator & Hspec & Hset).
  split; [exact Hspawned|].
  assert (Hs : spectator = {| actor_id := 1 |}).
  { vm_compute in Hspec. injection Hspec as <-. reflexivity. }
  rewrite Hset, Hs. change (forward_x origin) with unit_x.
  rewrite Hexample. reflexivity.
Defined.

Lemma spawn_point_selection_witness :
  no_spawn_point_run = (Returned 1, snd no_spawn_point_run) /\
  two_point_run = (Exited 0, snd two_point_run) /\
  In (Ok []) (spawn_point_answers (snd no_spawn_point_run)) /\
  In (Ok [origin; elsewhere]) (spawn_point_answers (snd two_point_run)) /\
  stderr_lines (snd no_spawn_point_run)
  = [[Str "Error: No spawn points found"; Endl]] /\
  spawn_requests (snd no_spawn_point_run) = [] /\
  exists bp, spawn_requests (snd two_point_run) = [(bp, origin)].
Proof.
  assert (Hempty : no_spawn_point_run = (Returned 1, snd no_spawn_point_run))
    by (vm_compute; reflexivity).
  assert (Htwo : two_point_run = (Exited 0, snd two_point_run))
    by (vm_compute; reflexivity).
  assert (Hin0 : In (Ok []) (spawn_point_answers (snd no_spawn_point_run)))
    by (vm_compute; auto).
  assert (Hin2 : In (Ok [origin; elsewhere])
                    (spawn_point_answers (snd two_point_run)))
    by (vm_compute; auto).
  split; [exact Hempty|]. split; [exact Htwo|].
  split; [exact Hin0|]. split; [exact Hin2|].
  destruct (spawn_point_selection (quiet_sdk [tesla] []) forward_x garbage
              _ _ _ _ Hempty) as (Hsel0 & _).
  destruct (Hsel0 _ Hin0) as (_ & _ & _ & Herr & Hnone).
  destruct (spawn_point_selection (quiet_sdk [tesla] [origin; elsewhere])
              forward_x garbage _ _ _ _ Htwo) as (Hsel2 & _).
  destruct (Hsel2 _ Hin2) as (_ & Hfirst).
  split; [exact Herr|]. split; [exact Hnone|]. exact Hfirst.
Defined.

(* ------------------------------------------------------------------ *)
(** ** Where the stated behaviour and the program part *)

(** C2 as stated fails on the run against a server without vehicle
    blueprints: the run ends with status 1, and its only diagnostic does
    not begin with [Error occurred:]. *)
Lemma no_blueprint_run_not_reported_by_handler :
  exit_status (fst no_blueprint_run) = Some 1 /\
  stderr_lines (snd no_blueprint_run)
  = [[Str "Error: No vehicle blueprints found"; Endl]] /\
  ~ reported_by_handler (fst no_blueprint_run) (snd no_blueprint_run).
Proof.
  split; [reflexivity|]. split; [reflexivity|].
  intros (_ & log & line & Htr & _ & Hbegin).
  assert (E : snd no_blueprint_run
              = removelast (snd no_blueprint_run)
                ++ [Cerr [Str "Error: No vehicle blueprints found"; Endl]])
    by (vm_compute; reflexivity).
  rewrite E in Htr. apply app_inj_tail in Htr. destruct Htr as [_ Hline].
  injection Hline as <-. vm_compute in Hbegin. discriminate Hbegin.
Qed.

(** C6 as stated fails on the argument [70000]: it does not parse as an
    unsigned 16-bit integer, yet the program does not fail during port
    parsing; it opens its session on port 70000 mod 65536 = 4464 and, the
    server being there, completes. *)
Lemma port_70000_is_accepted :
  parse_u16 "70000" = None /\
  connections (snd port_70000_run) = [("10.0.0.5", 4464)] /\
  fst port_70000_run = Exited 0 /\
  ~ fails_during_port_parsing (fst port_70000_run) (snd port_70000_run).
Proof.
  split; [reflexivity|]. split; [reflexivity|]. split; [reflexivity|].
  intros [Hstatus _]. vm_compute in Hstatus. discriminate Hstatus.
Qed.

(** C4.  On a server whose library has no [vehicle.tesla.model3] but has
    [vehicle.audi.tt], the program finds the first match of [vehicle.*] and
    announces it, yet the blueprint it hands to [SpawnActor] is not that
    match: it is whatever the storage of the destroyed filter result holds
    when [vehicle_bp] is read at line 86.  A server that only spawns what
    its library holds refuses the request, and the run ends with status 1
    and no vehicle. *)
Lemma fallback_run_spawns_stale_blueprint :
  (forall stale,
      let tr := snd (run (quiet_sdk [audi] [origin]) forward_x stale
                         ["program"] tt) in
      library_queries tr = [Found "vehicle.tesla.model3" (Ok None);
                            Filtered "vehicle.*" (Ok [audi])] /\
      pick fallback_notice tr = [bp_id audi] /\
      spawn_requests tr = [(stale, origin)])
  /\
  fst strict_fallback_run = Exited 1 /\
  pick fallback_notice (snd strict_fallback_run) = [bp_id audi] /\
  spawn_requests (snd strict_fallback_run) = [(garbage, origin)] /\
  pick spawned_actor (snd strict_fallback_run) = [] /\
  stderr_lines (snd strict_fallback_run)
  = [[Str "Error occurred: "; Str "blueprint not found"; Endl]].
Proof.
  split; [intros stale; cbv zeta; repeat split; reflexivity|].
  repeat split; reflexivity.
Qed.

(* ------------------------------------------------------------------ *)
(** ** More about the loop, the time line and the arithmetic *)

Lemma vehicle_target_loop vehicle control l :
  Forall (loop_event vehicle control) l ->
  Forall (eq vehicle) (pick vehicle_target l).
Proof.
  induction 1 as [|e l He _ IH]; [constructor|].
  destruct He; cbn [pick vehicle_target]; auto.
Qed.

Lemma answers_ticks vehicle control samples :
  forall i, Forall (eq true) (answers (ticks vehicle control i samples)).
Proof.
  induction samples as [|[l v] rest IH]; intros i; [constructor|].
  cbn [ticks tick_events]. unfold answers in *. rewrite pick_app.
  apply Forall_app. split; [repeat constructor | apply IH].
Qed.

Lemma only_last_may_throw_app (l r : list bool) :
  Forall (eq true) l -> only_last_may_throw r -> only_last_may_throw (l ++ r).
Proof.
  induction 1 as [|b l <- _ IH]; intros Hr; [exact Hr|].
  cbn [app only_last_may_throw]. now apply IH.
Qed.

Lemma answers_broken_tick vehicle control what tail :
  broken_tick vehicle control what tail ->
  only_last_may_throw (answers tail) /\ answers tail <> [] /\
  ~ Forall (eq true) (answers tail).
Proof.
  destruct 1; cbn; (split; [reflexivity|]); (split; [discriminate|]);
    intros HF;
    repeat match goal with
           | H : Forall _ (_ :: _) |- _ => inversion H; subst; clear H
           end; discriminate.
Qed.

Lemma marks_ticks vehicle control samples :
  forall i, pick mark_of (ticks vehicle control i samples)
            = List.concat (repeat tick_marks (List.length samples)).
Proof.
  induction samples as [|[l v] rest IH]; intros i; [reflexivity|].
  cbn [ticks List.length repeat List.concat]. rewrite pick_app, IH. reflexivity.
Qed.

Lemma marks_broken_tick vehicle control what tail :
  broken_tick vehicle control what tail -> pick mark_of tail = [Controlled].
Proof. destruct 1; reflexivity. Qed.

(** A pass cut after [k < n] complete ones is on the way to [n] passes. *)
Lemma cut_pass_on_time_line (k n : nat) (after : list mark) :
  (k < n)%nat ->
  List.concat (repeat tick_marks n) ++ after
  = (List.concat (repeat tick_marks k) ++ [Controlled])
    ++ (Slept 100 :: List.concat (repeat tick_marks (n - k - 1)) ++ after).
Proof.
  intros Hk. replace n with (k + S (n - k - 1))%nat at 1 by lia.
  rewrite repeat_app, concat_app. cbn [repeat List.concat tick_marks app].
  rewrite <- !app_assoc. reflexivity.
Qed.

Lemma logged_time_ticks vehicle control samples :
  forall i, pick logged_time (ticks vehicle control i samples)
            = map time_stamp (count_from i (List.length samples)).
Proof.
  induction samples as [|[l v] rest IH]; intros i; [reflexivity|].
  cbn [ticks List.length count_from map]. rewrite pick_app, IH. reflexivity.
Qed.

Lemma logged_time_broken vehicle control what tail :
  broken_tick vehicle control what tail -> pick logged_time tail = [].
Proof. destruct 1; reflexivity. Qed.

(** Rounding keeps the sign it is given. *)
Lemma binary_round_aux_sign (s : bool) (m e : Z) (l : SpecFloat.location) :
  match binary_round_aux F32.prec F32.emax s m e l with
  | S754_zero s' => s' = s
  | S754_infinity s' => s' = s
  | S754_finite s' _ _ => s' = s
  | S754_nan => True
  end.
Proof.
  unfold binary_round_aux.
  destruct (shr_fexp _ _ _ _ _) as [mrs e1].
  destruct (shr_fexp _ _ _ _ _) as [mrs' e2].
  destruct (shr_m mrs') as [|p|p]; [reflexivity| |exact I].
  destruct (e2 <=? F32.emax - F32.prec); reflexivity.
Qed.

Lemma binary_round_aux_clear (m e : Z) (l : SpecFloat.location) :
  sign_clear (binary_round_aux F32.prec F32.emax false m e l).
Proof.
  pose proof (binary_round_aux_sign false m e l) as H. unfold sign_clear.
  destruct (binary_round_aux _ _ _ _ _ _); auto.
Qed.

Lemma square_sign_clear (a : float) : sign_clear (a * a)%f32.
Proof.
  destruct a as [s|s| |s m e]; unfold F32.mul, SFmul.
  - now destruct s.
  - now destruct s.
  - exact I.
  - rewrite xorb_nilpotent. apply binary_round_aux_clear.
Qed.

Lemma add_sign_clear (a b : float) :
  sign_clear a -> sign_clear b -> sign_clear (a + b)%f32.
Proof.
  destruct a as [sa|sa| |sa ma ea], b as [sb|sb| |sb mb eb];
    cbn [sign_clear]; intros Ha Hb; subst; try exact I; try reflexivity.
  unfold F32.add, SFadd, cond_Zopp, binary_normalize.
  cbn [Z.add]. unfold binary_round.
  destruct (shl_align _ _ _) as [mz ez]. apply binary_round_aux_clear.
Qed.

Lemma sqrt_sign_clear (a : float) : sign_clear a -> sign_clear (F32.sqrt a).
Proof.
  destruct a as [s|s| |s m e]; cbn [sign_clear]; intros Ha; subst;
    try exact I; try reflexivity.
  unfold F32.sqrt, SFsqrt.
  destruct (SFsqrt_core_binary _ _ _ _) as [[mz ez] lz].
  apply binary_round_aux_clear.
Qed.

Lemma scale_sign_clear (a : float) :
  sign_clear a -> sign_clear (a * F32.decimal 36 1)%f32.
Proof.
  rewrite literal_3_6.
  destruct a as [s|s| |s m e]; cbn [sign_clear]; intros Ha; subst;
    try exact I; try reflexivity.
  unfold F32.mul, SFmul. cbn [xorb]. apply binary_round_aux_clear.
Qed.

Lemma square_flip (b : bool) (a : float) : (flip b a * flip b a = a * a)%f32.
Proof.
  destruct b; [|reflexivity].
  destruct a as [[]|[]| |[] m e]; reflexivity.
Qed.

(** [std::stoi] on white space, a numeral, and text that does not go on
    with a digit. *)
Lemma skip_spaces_app (ws s : string) :
  all_spaces ws = true ->
  Stoi.skip_spaces (ws ++ s) = Stoi.skip_spaces s.
Proof.
  induction ws as [|c r IH]; intros H; [reflexivity|].
  cbn [all_spaces] in H. apply andb_true_iff in H. destruct H as [Hc Hr].
  cbn [append Stoi.skip_spaces]. rewrite Hc. now apply IH.
Qed.

Lemma read_digits_junk (acc : Z) (junk : string) :
  no_leading_digit junk = true ->
  Stoi.read_digits (Some acc) junk = Some acc.
Proof.
  destruct junk as [|c r]; [reflexivity|].
  cbn [no_leading_digit Stoi.read_digits]. intros H.
  apply negb_true_iff in H. now rewrite H.
Qed.

Lemma read_digits_app (d junk : string) :
  forall acc, all_digits d = true -> no_leading_digit junk = true ->
    Stoi.read_digits (Some acc) (d ++ junk) = Some (decimal_value acc d).
Proof.
  induction d as [|c r IH]; intros acc Hd Hj.
  - now apply read_digits_junk.
  - cbn [all_digits] in Hd. apply andb_true_iff in Hd. destruct Hd as [Hc Hr].
    cbn [append Stoi.read_digits decimal_value]. rewrite Hc. now apply IH.
Qed.

Lemma stoi_lenient (ws P junk : string) (p : Z) :
  all_spaces ws = true ->
  parse_u16 P = Some p ->
  no_leading_digit junk = true ->
  Stoi.stoi (ws ++ P ++ junk) = Ok p.
Proof.
  intros Hws HP Hj. unfold parse_u16 in HP.
  destruct P as [|c r]; [discriminate|].
  destruct (all_digits (String c r)) eqn:Hd; [|discriminate].
  destruct (decimal_value 0 (String c r) <? 65536) eqn:Hlt; [|discriminate].
  cbn [andb] in HP. apply Z.ltb_lt in Hlt.
  pose proof (decimal_value_nonneg _ 0 Hd (Z.le_refl 0)) as Hge.
  pose proof Hd as Hd'. cbn [all_digits] in Hd'.
  apply andb_true_iff in Hd'. destruct Hd' as [Hc Hr].
  destruct (digit_is_no_space_nor_sign c (r ++ junk) Hc) as [Hsp Hsign].
  assert (Hv : Stoi.read_digits None (String c r ++ junk)
               = Some (decimal_value 0 (String c r))).
  { cbn [append Stoi.read_digits decimal_value]. rewrite Hc.
    now apply read_digits_app. }
  revert HP Hlt Hge Hv. generalize (decimal_value 0 (String c r)).
  intros v [= <-] Hlt Hge Hv.
  unfold Stoi.stoi. rewrite (skip_spaces_app ws _ Hws).
  change (String c r ++ junk)%string with (String c (r ++ junk)) in *.
  cbn [Stoi.skip_spaces]. rewrite Hsp, Hsign, Hv.
  replace (_ || _) with false; [reflexivity|].
  symmetry. apply orb_false_iff.
  change Stoi.INT_MIN with (-2147483648).
  change Stoi.INT_MAX with 2147483647.
  split; apply Z.ltb_ge; lia.
Qed.

Lemma read_digits_numeral (P : string) :
  all_digits P = true -> P <> EmptyString ->
  Stoi.read_digits None P = Some (decimal_value 0 P).
Proof.
  destruct P as [|c r]; intros Hd Hne; [now elim Hne|].
  cbn [all_digits] in Hd. apply andb_true_iff in Hd. destruct Hd as [Hc Hr].
  cbn [Stoi.read_digits decimal_value]. rewrite Hc. now apply read_digits_all.
Qed.

Lemma read_digits_none (s : string) :
  no_leading_digit s = true -> Stoi.read_digits None s = None.
Proof.
  destruct s as [|c r]; [reflexivity|].
  cbn [no_leading_digit Stoi.read_digits]. intros H.
  apply negb_true_iff in H. now rewrite H.
Qed.

(** [std::stoi] on a decimal numeral: its value, unless that is beyond
    [INT_MAX]. *)
Lemma stoi_numeral (P : string) :
  all_digits P = true -> P <> EmptyString ->
  Stoi.stoi P = if decimal_value 0 P <=? Stoi.INT_MAX
                then Ok (decimal_value 0 P)
                else Throw Stoi.out_of_range.
Proof.
  intros Hd Hne.
  pose proof (read_digits_numeral P Hd Hne) as Hv.
  pose proof (decimal_value_nonneg P 0 Hd (Z.le_refl 0)) as Hge.
  destruct P as [|c r]; [now elim Hne|].
  pose proof Hd as Hd'. cbn [all_digits] in Hd'.
  apply andb_true_iff in Hd'. destruct Hd' as [Hc _].
  destruct (digit_is_no_space_nor_sign c r Hc) as [Hsp Hsign].
  revert Hv Hge. generalize (decimal_value 0 (String c r)). intros v Hv Hge.
  unfold Stoi.stoi. cbn [Stoi.skip_spaces]. rewrite Hsp, Hsign, Hv.
  change Stoi.INT_MIN with (-2147483648).
  change Stoi.INT_MAX with 2147483647.
  replace (v <? -2147483648) with false by (symmetry; apply Z.ltb_ge; lia).
  cbn [orb].
  destruct (Z.ltb_spec 2147483647 v), (Z.leb_spec v 2147483647);
    try lia; reflexivity.
Qed.

(** [std::stoi] on a minus sign and a numeral of an unsigned 16-bit value. *)
Lemma stoi_minus (P : string) (v : Z) :
  parse_u16 P = Some v -> Stoi.stoi ("-" ++ P) = Ok (- v).
Proof.
  intros HP. unfold parse_u16 in HP.
  destruct P as [|c r]; [discriminate|].
  destruct (all_digits (String c r)) eqn:Hd; [|discriminate].
  destruct (decimal_value 0 (String c r) <? 65536) eqn:Hlt; [|discriminate].
  cbn [andb] in HP. apply Z.ltb_lt in Hlt.
  pose proof (decimal_value_nonneg _ 0 Hd (Z.le_refl 0)) as Hge.
  assert (Hv : Stoi.read_digits None (String c r)
               = Some (decimal_value 0 (String c r)))
    by (apply read_digits_numeral; [exact Hd | discriminate]).
  revert HP Hlt Hge Hv. generalize (decimal_value 0 (String c r)).
  intros w [= <-] Hlt Hge Hv.
  unfold Stoi.stoi.
  change (Stoi.skip_spaces ("-" ++ String c r))
    with (String "-" (String c r)).
  change (Stoi.read_sign (String "-" (String c r)))
    with (true, String c r).
  cbv beta iota zeta. rewrite Hv.
  change Stoi.INT_MIN with (-2147483648).
  change Stoi.INT_MAX with 2147483647.
  replace (- w <? -2147483648) with false by (symmetry; apply Z.ltb_ge; lia).
  replace (2147483647 <? - w) with false by (symmetry; apply Z.ltb_ge; lia).
  reflexivity.
Qed.

Lemma fallback_notice_ticks vehicle control samples :
  forall i, pick fallback_notice (ticks vehicle control i samples) = [].
Proof.
  induction samples as [|[l v] rest IH]; intros i; [reflexivity|].
  cbn [ticks]. rewrite pick_app, IH. reflexivity.
Qed.

Lemma fallback_notice_broken vehicle control what tail :
  broken_tick vehicle control what tail -> pick fallback_notice tail = [].
Proof. destruct 1; reflexivity. Qed.

Ltac all_true :=
  repeat first
    [ apply Forall_nil
    | apply Forall_cons; [reflexivity|]
    | apply Forall_app; split
    | apply answers_ticks ].

Section ScenarioProperties.

Context {St : Type}.
Variable sdk : forall c : sdk_call, St -> result (resp c) * St.
Variable GetForwardVector : Transform -> Vector3D.
Variable stale_blueprint : ActorBlueprint.

(** X1.  The first SDK call of a run creates the client, and the calls
    that follow it start with: set the 10 s timeout, get the world, get
    the map, get the blueprint library, look up [vehicle.tesla.model3], in
    that order, for as far as the run gets.  The timeout is therefore set
    before anything is asked of the world. *)
Theorem session_setup_order (argv : list string) (s0 : St)
    (o : outcome unit) (tr : list event) :
  run sdk GetForwardVector stale_blueprint argv s0 = (o, tr) ->
  match calls tr with
  | [] => True
  | first :: others =>
      (exists host port, first = ClientCtor host port) /\
      is_prefix (firstn 5 others) session_setup
  end.
Proof.
  intros H. run_cases H.
  all: views; try exact I.
  all: split; [eexists _, _; reflexivity|].
  all: cbn [firstn]; eexists; reflexivity.
Qed.

(** X2.  Every call on a vehicle (transform, control, location, velocity)
    is made on the one actor the spawn returned, and the spectator
    transform is set on the actor [GetSpectator] returned; a run that
    completes has spawned exactly one actor. *)
Theorem single_vehicle (argv : list string) (s0 : St)
    (o : outcome unit) (tr : list event) :
  run sdk GetForwardVector stale_blueprint argv s0 = (o, tr) ->
  match pick spawned_actor tr with
  | [] => pick vehicle_target tr = []
  | [vehicle] => Forall (eq vehicle) (pick vehicle_target tr)
  | _ => False
  end
  /\
  match pick spectator_answer tr with
  | [] => pick set_transform_of tr = []
  | [spectator] =>
      Forall (fun placed => fst placed = spectator) (pick set_transform_of tr)
  | _ => False
  end
  /\
  (exit_status o = Some 0 -> exists vehicle, pick spawned_actor tr = [vehicle]).
Proof.
  intros H. run_cases H.
  all: split; [|split].
  all: views; skip_loop.
  all: try reflexivity.
  all: try (intros Hs; first [discriminate Hs | eexists; reflexivity]).
  all: repeat first
         [ apply Forall_nil
         | apply Forall_cons; [reflexivity|]
         | apply Forall_app; split
         | eapply vehicle_target_loop; apply ticks_loop
         | eapply vehicle_target_loop, broken_tick_loop; eassumption ].
Qed.

(** X3.  What a run does to the world and to the clock is an initial part
    of one fixed time line: spawn, sleep 1 s, place the spectator, fifty
    times (control, sleep 100 ms), brake control, sleep 2 s; a run that
    completes goes through all of it.  So the spectator is placed after
    the settling second and before the first control message. *)
Theorem scenario_timeline (argv : list string) (s0 : St)
    (o : outcome unit) (tr : list event) :
  run sdk GetForwardVector stale_blueprint argv s0 = (o, tr) ->
  exists rest,
    timeline = pick mark_of tr ++ rest /\
    (exit_status o = Some 0 -> rest = []).
Proof.
  intros H. run_cases H.
  all: views; rewrite ?marks_ticks, ?(marks_broken_tick _ _ _ _ Hbroken);
    rewrite ?app_nil_r.
  all: try rewrite Hlen.
  all: try (eexists; split;
            [ reflexivity
            | intros Hs; first [discriminate Hs | reflexivity] ]).
  all: eexists; split; [|intros Hs; discriminate Hs].
  all: unfold timeline; cbn [app].
  all: rewrite (cut_pass_on_time_line _ _ _ Hlen).
  all: reflexivity.
Qed.

(** X4.  A run ends in one of three ways: [std::exit(0)], [std::exit(1)]
    or [return 1]; the [return 0] that closes [main] is never reached and
    no exception leaves [main].  At most one line is written to stderr,
    and the status is 0 exactly when none is. *)
Theorem exit_status_and_stderr (argv : list string) (s0 : St)
    (o : outcome unit) (tr : list event) :
  run sdk GetForwardVector stale_blueprint argv s0 = (o, tr) ->
  (o = Exited 0 \/ o = Exited 1 \/ o = Returned 1) /\
  (List.length (stderr_lines tr) <= 1)%nat /\
  (exit_status o = Some 0 <-> stderr_lines tr = []).
Proof.
  intros H. run_cases H.
  all: split; [auto|].
  all: views; skip_loop; cbn [app List.length].
  all: split; [lia|].
  all: split; intros Hs; first [reflexivity | discriminate Hs].
Qed.

(** X5.  Nothing is retried and nothing is called after a failure: among
    the answers of the SDK in a run, only the last can be an exception,
    and unless the run ends through the handler ([std::exit(1)]) every
    call returned. *)
Theorem no_call_after_throw (argv : list string) (s0 : St)
    (o : outcome unit) (tr : list event) :
  run sdk GetForwardVector stale_blueprint argv s0 = (o, tr) ->
  only_last_may_throw (answers tr) /\
  (o <> Exited 1 -> Forall (eq true) (answers tr)).
Proof.
  intros H. run_cases H.
  all: split; [|intros Hne; try (exfalso; apply Hne; reflexivity)].
  all: views; fold answers; rewrite ?app_nil_r, <- ?app_assoc;
    cbn [app only_last_may_throw].
  all: try exact I; try reflexivity.
  all: try solve [all_true].
  all: apply only_last_may_throw_app; [apply answers_ticks|].
  all: first [ exact I | reflexivity
             | apply (answers_broken_tick _ _ _ _ Hbroken) ].
Qed.

(** X6.  Whatever the arguments, a client is only ever created for a port
    between 0 and 65535. *)
Theorem port_in_range (argv : list string) (s0 : St)
    (o : outcome unit) (tr : list event) :
  run sdk GetForwardVector stale_blueprint argv s0 = (o, tr) ->
  Forall (fun session => 0 <= snd session < 65536) (connections tr).
Proof.
  intros H. apply run_connection in H. cbv zeta in H.
  destruct H as [(_ & what & _ & _ & ->)
                | (port & Hport & -> & _)].
  - constructor.
  - constructor; [|constructor]. cbn [snd].
    destruct Hport as [(_ & n & _ & ->) | (_ & ->)]; [|lia].
    unfold to_uint16. apply Z.mod_pos_bound. lia.
Qed.

(** X7.  The first thing a run writes, when it opens a session at all, is
    the line that announces the host and the port of that session. *)
Theorem announcement_matches_session (argv : list string) (s0 : St)
    (o : outcome unit) (tr : list event) :
  run sdk GetForwardVector stale_blueprint argv s0 = (o, tr) ->
  forall host port,
    In (host, port) (connections tr) ->
    hd_error tr = Some (Cout [Str "Connecting to CARLA server: ";
                              Str host; Str ":"; Num port; Endl]).
Proof.
  intros H host port Hin. apply run_connection in H. cbv zeta in H.
  destruct H as [(_ & what & _ & _ & ->)
                | (port' & _ & Hc & Hhd)].
  - destruct Hin.
  - rewrite Hc in Hin. destruct Hin as [[= <- <-] | []]. exact Hhd.
Qed.

(** X8.  White space in front of the port and text behind it are
    ignored: when the second argument is white space, then a numeral of
    an unsigned 16-bit value [p], then text that does not start with a
    digit, the session is opened on port [p]. *)
Theorem lenient_port_argument (prog H ws P junk : string)
    (rest : list string) (p : Z) (s0 : St)
    (o : outcome unit) (tr : list event) :
  all_spaces ws = true ->
  parse_u16 P = Some p ->
  no_leading_digit junk = true ->
  run sdk GetForwardVector stale_blueprint (prog :: H :: (ws ++ P ++ junk)%string :: rest) s0
  = (o, tr) ->
  connections tr = [(H, p)].
Proof.
  intros Hws HP Hj Hrun.
  pose proof (run_with_port_argument _ _ _ _ _ _ _ _ _ _ Hrun) as Hm.
  rewrite (stoi_lenient ws P junk p Hws HP Hj) in Hm.
  destruct (stoi_u16 P p HP) as (_ & Hconv & _).
  now rewrite Hconv in Hm.
Qed.

(** X12.  A second argument made of decimal digits only is taken modulo
    65536 as long as its value fits an [int]; beyond [INT_MAX] the program
    fails during port parsing with the exception of [std::stoi] and does
    nothing else. *)
Theorem numeral_port_wraps (prog H P : string) (rest : list string)
    (s0 : St) (o : outcome unit) (tr : list event) :
  all_digits P = true ->
  P <> EmptyString ->
  run sdk GetForwardVector stale_blueprint (prog :: H :: P :: rest) s0 = (o, tr) ->
  if decimal_value 0 P <=? Stoi.INT_MAX
  then connections tr = [(H, decimal_value 0 P mod 65536)]
  else o = Exited 1 /\
       tr = [Cerr [Str "Error occurred: "; Str Stoi.out_of_range; Endl]].
Proof.
  intros Hd Hne Hrun.
  pose proof (run_with_port_argument _ _ _ _ _ _ _ _ _ _ Hrun) as Hm.
  rewrite (stoi_numeral P Hd Hne) in Hm.
  destruct (decimal_value 0 P <=? Stoi.INT_MAX); exact Hm.
Qed.

(** X13.  A minus sign is accepted: the argument [-v], for [v] from 1 to
    65535, opens the session on port [65536 - v]. *)
Theorem negative_port_wraps (prog H P : string) (rest : list string)
    (v : Z) (s0 : St) (o : outcome unit) (tr : list event) :
  parse_u16 P = Some v ->
  1 <= v ->
  run sdk GetForwardVector stale_blueprint (prog :: H :: ("-" ++ P)%string :: rest) s0
  = (o, tr) ->
  connections tr = [(H, 65536 - v)].
Proof.
  intros HP Hv Hrun.
  pose proof (run_with_port_argument _ _ _ _ _ _ _ _ _ _ Hrun) as Hm.
  rewrite (stoi_minus P v HP) in Hm.
  destruct (stoi_u16 P v HP) as (_ & _ & Hrange).
  replace (to_uint16 (- v)) with (65536 - v) in Hm; [exact Hm|].
  unfold to_uint16. apply Z.mod_unique with (q := -1); lia.
Qed.

(** X14.  A second argument in which no digit follows the optional white
    space and sign (the empty argument, for one) makes the program fail
    during port parsing: it writes the diagnostic of the handler and
    exits with status 1 without a single SDK call or line on stdout. *)
Theorem port_without_digits_fails (prog H P : string) (rest : list string)
    (s0 : St) (o : outcome unit) (tr : list event) :
  no_leading_digit (snd (Stoi.read_sign (Stoi.skip_spaces P))) = true ->
  run sdk GetForwardVector stale_blueprint (prog :: H :: P :: rest) s0 = (o, tr) ->
  o = Exited 1 /\
  tr = [Cerr [Str "Error occurred: "; Str Stoi.invalid_argument; Endl]].
Proof.
  intros Hnd Hrun.
  pose proof (run_with_port_argument _ _ _ _ _ _ _ _ _ _ Hrun) as Hm.
  unfold Stoi.stoi in Hm.
  destruct (Stoi.read_sign (Stoi.skip_spaces P)) as [negative s].
  cbn [snd] in Hnd. rewrite (read_digits_none s Hnd) in Hm. exact Hm.
Qed.

(** X15.  How the blueprint is chosen.  When the library returns a
    blueprint for [vehicle.tesla.model3], that is the only query and that
    blueprint is the one spawned.  The library is filtered only after a
    null answer to that lookup, and only by [vehicle.*]: an empty answer
    ends the run with [Error: No vehicle blueprints found] and status 1
    without a spawn request; a non-empty answer has the id of its first
    element announced, but what is handed to [SpawnActor] is read through
    the pointer into the already destroyed filter result
    ([stale_blueprint]), not that first element. *)
Theorem blueprint_selection (argv : list string) (s0 : St)
    (o : outcome unit) (tr : list event) :
  run sdk GetForwardVector stale_blueprint argv s0 = (o, tr) ->
  (forall bp,
      In (Found "vehicle.tesla.model3" (Ok (Some bp))) (library_queries tr) ->
      library_queries tr = [Found "vehicle.tesla.model3" (Ok (Some bp))] /\
      spawned_with bp tr)
  /\
  (forall pattern r,
      In (Filtered pattern r) (library_queries tr) ->
      library_queries tr = [Found "vehicle.tesla.model3" (Ok None);
                            Filtered "vehicle.*" r] /\
      match r with
      | Ok [] =>
          o = Returned 1 /\
          stderr_lines tr
          = [[Str "Error: No vehicle blueprints found"; Endl]] /\
          spawn_requests tr = []
      | Ok (first :: _) =>
          pick fallback_notice tr = [bp_id first] /\
          spawned_with stale_blueprint tr
      | Throw _ => spawn_requests tr = []
      end).
Proof.
  intros H. run_cases H.
  all: split.
  all: lazymatch goal with
       | |- forall bp, In _ _ -> _ =>
           intros bp; views; skip_loop; cbn [app In]; intros Hin;
           repeat match type of Hin with
                  | _ \/ _ => destruct Hin as [Hin | Hin]
                  end;
           lazymatch type of Hin with
           | False => destruct Hin
           | _ => first [ discriminate Hin
                        | injection Hin as <-; split; reflexivity ]
           end
       | |- forall pattern r, In _ _ -> _ =>
           intros pattern r; views; skip_loop;
           rewrite ?fallback_notice_ticks,
             ?(fallback_notice_broken _ _ _ _ Hbroken);
           cbn [app In]; intros Hin;
           repeat match type of Hin with
                  | _ \/ _ => destruct Hin as [Hin | Hin]
                  end;
           lazymatch type of Hin with
           | False => destruct Hin
           | _ => first [ discriminate Hin
                        | injection Hin as <- <-; cbv beta iota;
                          repeat match goal with
                                 | |- _ /\ _ => split
                                 end; reflexivity ]
           end
       end.
Qed.

(** X11.  The telemetry lines of a run are stamped [0 * 0.1f],
    [1 * 0.1f], [2 * 0.1f], ... in order, one stamp per complete pass;
    a run that completes has the fifty stamps from 0 to [49 * 0.1f]. *)
Theorem telemetry_time_stamps (argv : list string) (s0 : St)
    (o : outcome unit) (tr : list event) :
  run sdk GetForwardVector stale_blueprint argv s0 = (o, tr) ->
  exists passes,
    (passes <= 50)%nat /\
    pick logged_time tr = map time_stamp (count_from 0 passes) /\
    (exit_status o = Some 0 -> passes = 50%nat).
Proof.
  intros H. run_cases H.
  all: views; rewrite ?logged_time_ticks;
    rewrite ?(logged_time_broken _ _ _ _ Hbroken);
    rewrite ?app_nil_r.
  all: first
    [ exists (List.length samples);
      split; [lia|]; split; [reflexivity|];
      intros Hs; first [discriminate Hs | assumption]
    | exists 0%nat;
      split; [lia|]; split; [reflexivity|];
      intros Hs; discriminate Hs ].
Qed.

End ScenarioProperties.

(** X9.  The speed that is logged is never negative: it is [+0], a
    positive number, [+inf] or not a number, whatever the velocity read. *)
Theorem speed_is_not_negative (v : Vector3D) :
  sign_clear (speed_kmh v) /\
  SFltb (speed_kmh v) F32.zero = false.
Proof.
  assert (H : sign_clear (speed_kmh v)).
  { unfold speed_kmh. apply scale_sign_clear, sqrt_sign_clear.
    repeat apply add_sign_clear; apply square_sign_clear. }
  split; [exact H|].
  destruct (speed_kmh v) as [s|s| |s m e]; cbn [sign_clear] in H; subst;
    reflexivity.
Qed.

(** X10.  For a velocity whose components are numbers (not NaN), the speed
    does not depend on the direction of travel: negating any of the
    components leaves it unchanged, bit for bit. *)
Theorem speed_ignores_direction (bx by_ bz : bool) (v : Vector3D) :
  is_nan (v_x v) = false ->
  is_nan (v_y v) = false ->
  is_nan (v_z v) = false ->
  speed_kmh (mirrored bx by_ bz v) = speed_kmh v.
Proof.
  intros _ _ _. unfold speed_kmh, mirrored. cbn [v_x v_y v_z].
  now rewrite !square_flip.
Qed.


(* ------------------------------------------------------------------ *)
(** ** The scenario properties at concrete runs *)

Lemma session_setup_order_witness :
  completed_run = (Exited 0, snd completed_run) /\
  (match calls (snd completed_run) with
  | [] => True
  | first :: others =>
      (exists host port, first = ClientCtor host port) /\
      is_prefix (firstn 5 others) session_setup
  end).
Proof.
  assert (Hrun : completed_run = (Exited 0, snd completed_run))
    by (vm_compute; reflexivity).
  split; [exact Hrun|].
  exact (session_setup_order _ _ _ _ _ _ _ Hrun ).
Defined.

Lemma single_vehicle_witness :
  completed_run = (Exited 0, snd completed_run) /\
  (match pick spawned_actor (snd completed_run) with
  | [] => pick vehicle_target (snd completed_run) = []
  | [vehicle] => Forall (eq vehicle) (pick vehicle_target (snd completed_run))
  | _ => False
  end
  /\
  match pick spectator_answer (snd completed_run) with
  | [] => pick set_transform_of (snd completed_run) = []
  | [spectator] =>
      Forall (fun placed => fst placed = spectator) (pick set_transform_of (snd completed_run))
  | _ => False
  end
  /\
  (exit_status (@Exited unit 0) = Some 0 -> exists vehicle, pick spawned_actor (snd completed_run) = [vehicle])).
Proof.
  assert (Hrun : completed_run = (Exited 0, snd completed_run))
    by (vm_compute; reflexivity).
  split; [exact Hrun|].
  exact (single_vehicle _ _ _ _ _ _ _ Hrun ).
Defined.

Lemma scenario_timeline_witness :
  completed_run = (Exited 0, snd completed_run) /\
  (exists rest,
    timeline = pick mark_of (snd completed_run) ++ rest /\
    (exit_status (@Exited unit 0) = Some 0 -> rest = [])).
Proof.
  assert (Hrun : completed_run = (Exited 0, snd completed_run))
    by (vm_compute; reflexivity).
  split; [exact Hrun|].
  exact (scenario_timeline _ _ _ _ _ _ _ Hrun ).
Defined.

Lemma exit_status_and_stderr_witness :
  collision_run = (Exited 1, snd collision_run) /\
  (((@Exited unit 1) = Exited 0 \/ (@Exited unit 1) = Exited 1 \/ (@Exited unit 1) = Returned 1) /\
  (List.length (stderr_lines (snd collision_run)) <= 1)%nat /\
  (exit_status (@Exited unit 1) = Some 0 <-> stderr_lines (snd collision_run) = [])).
Proof.
  assert (Hrun : collision_run = (Exited 1, snd collision_run))
    by (vm_compute; reflexivity).
  split; [exact Hrun|].
  exact (exit_status_and_stderr _ _ _ _ _ _ _ Hrun ).
Defined.

Lemma no_call_after_throw_witness :
  collision_run = (Exited 1, snd collision_run) /\
  (only_last_may_throw (answers (snd collision_run)) /\
  ((@Exited unit 1) <> Exited 1 -> Forall (eq true) (answers (snd collision_run)))).
Proof.
  assert (Hrun : collision_run = (Exited 1, snd collision_run))
    by (vm_compute; reflexivity).
  split; [exact Hrun|].
  exact (no_call_after_throw _ _ _ _ _ _ _ Hrun ).
Defined.

Lemma port_in_range_witness :
  port_70000_run = (Exited 0, snd port_70000_run) /\
  (Forall (fun session => 0 <= snd session < 65536) (connections (snd port_70000_run))).
Proof.
  assert (Hrun : port_70000_run = (Exited 0, snd port_70000_run))
    by (vm_compute; reflexivity).
  split; [exact Hrun|].
  exact (port_in_range _ _ _ _ _ _ _ Hrun ).
Defined.

Lemma announcement_matches_session_witness :
  port_3000_run = (Exited 0, snd port_3000_run) /\
  (forall host port,
    In (host, port) (connections (snd port_3000_run)) ->
    hd_error (snd port_3000_run) = Some (Cout [Str "Connecting to CARLA server: ";
                              Str host; Str ":"; Num port; Endl])).
Proof.
  assert (Hrun : port_3000_run = (Exited 0, snd port_3000_run))
    by (vm_compute; reflexivity).
  split; [exact Hrun|].
  exact (announcement_matches_session _ _ _ _ _ _ _ Hrun ).
Defined.

Lemma telemetry_time_stamps_witness :
  completed_run = (Exited 0, snd completed_run) /\
  (exists passes,
    (passes <= 50)%nat /\
    pick logged_time (snd completed_run) = map time_stamp (count_from 0 passes) /\
    (exit_status (@Exited unit 0) = Some 0 -> passes = 50%nat)).
Proof.
  assert (Hrun : completed_run = (Exited 0, snd completed_run))
    by (vm_compute; reflexivity).
  split; [exact Hrun|].
  exact (telemetry_time_stamps _ _ _ _ _ _ _ Hrun ).
Defined.

Lemma lenient_port_argument_witness :
  all_spaces " " = true /\
  parse_u16 "3000" = Some 3000 /\
  no_leading_digit "abc" = true /\
  lenient_port_run = (Exited 0, snd lenient_port_run) /\
  connections (snd lenient_port_run) = [("10.0.0.5", 3000)].
Proof.
  assert (Hrun : lenient_port_run = (Exited 0, snd lenient_port_run))
    by (vm_compute; reflexivity).
  split; [reflexivity|]. split; [reflexivity|]. split; [reflexivity|].
  split; [exact Hrun|].
  exact (lenient_port_argument (quiet_sdk [tesla] [origin]) forward_x garbage "program" "10.0.0.5" " " "3000" "abc" []
           3000 tt _ _ eq_refl eq_refl eq_refl Hrun).
Defined.

Lemma numeral_port_wraps_witness :
  all_digits "70000" = true /\
  "70000" <> EmptyString /\
  port_70000_run = (Exited 0, snd port_70000_run) /\
  connections (snd port_70000_run) = [("10.0.0.5", 4464)].
Proof.
  assert (Hrun : port_70000_run = (Exited 0, snd port_70000_run))
    by (vm_compute; reflexivity).
  assert (Hne : "70000" <> EmptyString) by discriminate.
  split; [reflexivity|]. split; [exact Hne|]. split; [exact Hrun|].
  exact (numeral_port_wraps (quiet_sdk [tesla] [origin]) forward_x garbage "program" "10.0.0.5" "70000" [] tt _ _
           eq_refl Hne Hrun).
Defined.

Lemma negative_port_wraps_witness :
  parse_u16 "1" = Some 1 /\
  1 <= 1 /\
  minus_one_port_run = (Exited 0, snd minus_one_port_run) /\
  connections (snd minus_one_port_run) = [("10.0.0.5", 65535)].
Proof.
  assert (Hrun : minus_one_port_run = (Exited 0, snd minus_one_port_run))
    by (vm_compute; reflexivity).
  assert (Hv : 1 <= 1) by lia.
  split; [reflexivity|]. split; [exact Hv|]. split; [exact Hrun|].
  exact (negative_port_wraps (quiet_sdk [tesla] [origin]) forward_x garbage "program" "10.0.0.5" "1" [] 1 tt _ _
           eq_refl Hv Hrun).
Defined.

Lemma port_without_digits_fails_witness :
  no_leading_digit (snd (Stoi.read_sign (Stoi.skip_spaces ""))) = true /\
  empty_port_run = (Exited 1, snd empty_port_run) /\
  @Exited unit 1 = Exited 1 /\
  snd empty_port_run
  = [Cerr [Str "Error occurred: "; Str Stoi.invalid_argument; Endl]].
Proof.
  assert (Hrun : empty_port_run = (Exited 1, snd empty_port_run))
    by (vm_compute; reflexivity).
  split; [reflexivity|]. split; [exact Hrun|].
  exact (port_without_digits_fails (quiet_sdk [tesla] [origin]) forward_x garbage "program" "10.0.0.5" "" [] tt _ _
           eq_refl Hrun).
Defined.

Lemma blueprint_selection_witness :
  completed_run = (Exited 0, snd completed_run) /\
  fallback_run = (Exited 0, snd fallback_run) /\
  In (Found "vehicle.tesla.model3" (Ok (Some tesla)))
     (library_queries (snd completed_run)) /\
  In (Filtered "vehicle.*" (Ok [audi])) (library_queries (snd fallback_run)) /\
  spawn_requests (snd completed_run) = [(tesla, origin)] /\
  pick fallback_notice (snd fallback_run) = [bp_id audi] /\
  spawn_requests (snd fallback_run) = [(garbage, origin)].
Proof.
  assert (Hfound : completed_run = (Exited 0, snd completed_run))
    by (vm_compute; reflexivity).
  assert (Hfall : fallback_run = (Exited 0, snd fallback_run))
    by (vm_compute; reflexivity).
  assert (Hin1 : In (Found "vehicle.tesla.model3" (Ok (Some tesla)))
                    (library_queries (snd completed_run)))
    by (vm_compute; auto).
  assert (Hin2 : In (Filtered "vehicle.*" (Ok [audi]))
                    (library_queries (snd fallback_run)))
    by (vm_compute; auto).
  split; [exact Hfound|]. split; [exact Hfall|].
  split; [exact Hin1|]. split; [exact Hin2|].
  destruct (blueprint_selection (quiet_sdk [tesla] [origin]) forward_x garbage
              _ _ _ _ Hfound) as (Hsel1 & _).
  destruct (Hsel1 _ Hin1) as (_ & Hspawn1).
  destruct (blueprint_selection (quiet_sdk [audi] [origin]) forward_x garbage
              _ _ _ _ Hfall) as (_ & Hsel2).
  destruct (Hsel2 _ _ Hin2) as (_ & Hnotice & Hspawn2).
  split; [exact Hspawn1|]. split; [exact Hnotice|]. exact Hspawn2.
Defined.

Lemma speed_ignores_direction_witness :
  is_nan (v_x {| v_x := F32.of_Z 3; v_y := F32.of_Z 4; v_z := F32.zero |})
  = false /\
  is_nan (v_y {| v_x := F32.of_Z 3; v_y := F32.of_Z 4; v_z := F32.zero |})
  = false /\
  is_nan (v_z {| v_x := F32.of_Z 3; v_y := F32.of_Z 4; v_z := F32.zero |})
  = false /\
  speed_kmh
    (mirrored true false true
       {| v_x := F32.of_Z 3; v_y := F32.of_Z 4; v_z := F32.zero |})
  = speed_kmh {| v_x := F32.of_Z 3; v_y := F32.of_Z 4; v_z := F32.zero |}.
Proof.
  split; [reflexivity|]. split; [reflexivity|]. split; [reflexivity|].
  exact (speed_ignores_direction true false true
           {| v_x := F32.of_Z 3; v_y := F32.of_Z 4; v_z := F32.zero |}
           eq_refl eq_refl eq_refl).
Defined.
